(** * The session context of the E-Cell registration front-end

    A shallow embedding of [contexts/AuthContext.tsx]: the React provider that
    keeps the user and admin sessions, mirrors them into [localStorage] and
    forwards look-ups and writes to [MockDataService].

    The provider's operations are written in a small monad that threads the
    provider's world (React state, [localStorage], the data service and the
    clock), records every effect in a log and propagates JavaScript
    exceptions, so that [try]/[catch]/[finally] reads as in the source. *)

From Stdlib Require Import PrimFloat Ascii String.
From stdpp Require Import base strings gmap list.

Open Scope string_scope.
Set Warnings "-register-all".

(* ================================================================== *)
(** * JavaScript values and the built-ins the provider calls *)
(* ================================================================== *)

Module JS.

(** The values [JSON.parse] can produce, and [undefined].  A number is an
    IEEE double.  An object keeps its own properties in insertion order,
    each key once. *)
Inductive value : Type :=
| Undefined
| Null
| Bool (b : bool)
| Number (n : float)
| Str (s : string)
| Arr (items : list value)
| Obj (props : list (string * value)).

(** What a [throw] carries.  [Rejected] is a rejected promise of the data
    service, [QuotaExceededError] what [localStorage.setItem] throws when the
    browser refuses the write. *)
Inductive exn : Type :=
| SyntaxError
| TypeError
| QuotaExceededError
| Rejected (reason : string).

Inductive outcome (A : Type) : Type :=
| Returns (a : A)
| Throws (e : exn).
Arguments Returns {A} a.
Arguments Throws {A} e.

(** [ToBoolean]: the falsy values are [undefined], [null], [false], [0],
    [-0], [NaN] and the empty string. *)
Definition truthy (v : value) : bool :=
  match v with
  | Undefined | Null => false
  | Bool b => b
  | Number n => negb (PrimFloat.is_zero n || PrimFloat.is_nan n)
  | Str s => negb (String.eqb s "")
  | Arr _ | Obj _ => true
  end.

(** [a || b] *)
Definition or (a b : value) : value := if truthy a then a else b.

Fixpoint own (k : string) (props : list (string * value)) : value :=
  match props with
  | [] => Undefined
  | (k', v) :: rest => if String.eqb k k' then v else own k rest
  end.

(** [v.k], for the property names the provider reads (none of them is
    [length], an index or an inherited member): reading a property of
    [null] or [undefined] throws a [TypeError], a primitive or an array has
    none of these names. *)
Definition get (v : value) (k : string) : outcome value :=
  match v with
  | Undefined | Null => Throws TypeError
  | Obj props => Returns (own k props)
  | Bool _ | Number _ | Str _ | Arr _ => Returns Undefined
  end.

(** ** Strings.  A string is modelled by the bytes of its UTF-8 encoding.
    A byte below 128 is an ASCII character on its own, so [includes] and
    [endsWith] with an ASCII argument are exact on the encoding. *)

(** [s.includes(needle)] *)
Fixpoint includes (s needle : string) : bool :=
  String.prefix needle s ||
  match s with
  | EmptyString => false
  | String _ rest => includes rest needle
  end.

(** [s.endsWith(suffix)] *)
Fixpoint endsWith (s suffix : string) : bool :=
  String.eqb s suffix ||
  match s with
  | EmptyString => false
  | String _ rest => endsWith rest suffix
  end.

Definition is_lower (c : ascii) : bool :=
  let n := nat_of_ascii c in (97 <=? n)%nat && (n <=? 122)%nat.

Definition is_upper (c : ascii) : bool :=
  let n := nat_of_ascii c in (65 <=? n)%nat && (n <=? 90)%nat.

Definition upper_char (c : ascii) : ascii :=
  if is_lower c then ascii_of_nat (nat_of_ascii c - 32) else c.

Definition is_ascii (c : ascii) : bool := (nat_of_ascii c <? 128)%nat.

(** The case mappings of the runtime: [s.toUpperCase()] and
    [s.toLowerCase()], which follow Unicode.  The mapping to upper case
    works character by character, without context; an ASCII byte is a
    character of its own, so what comes before it and what comes after it
    are mapped on their own, and the byte itself as an ASCII letter is. *)
Class Casing : Type := {
  toUpperCase : string -> string;
  toLowerCase : string -> string;
  toUpperCase_around_ascii :
    forall (before after : string) (c : ascii),
      is_ascii c = true ->
      toUpperCase (before +:+ String c after)
      = toUpperCase before +:+ String (upper_char c) (toUpperCase after)
}.

(** Two bytes that are the same ASCII letter, in either case, or the same
    byte. *)
Definition same_letter (a b : ascii) : bool :=
  Ascii.eqb a b
  || (is_lower a && Ascii.eqb (upper_char a) b)
  || (is_lower b && Ascii.eqb a (upper_char b)).

(** Two strings that differ only in the case of ASCII letters. *)
Fixpoint same_modulo_case (a b : string) : bool :=
  match a, b with
  | EmptyString, EmptyString => true
  | String x a', String y b' => same_letter x y && same_modulo_case a' b'
  | _, _ => false
  end.

(** The runtime's [JSON] object.  [JSON_parse] answers [None] where
    [JSON.parse] throws a [SyntaxError]. *)
Class JSON : Type := {
  JSON_parse : string -> option value;
  JSON_stringify : value -> string
}.

End JS.

Import JS.

(* ================================================================== *)
(** * Records exchanged with the data service *)
(* ================================================================== *)

(** Modelled from the spec: the [User] type of [@/lib/supabase], whose
    declaration is not part of the sources at hand.  The fields are the ones
    the provider reads (section 3 of the specification: identity, contact,
    academic identity, display name, lifecycle status) and the three the
    provider's signatures name ([created_at], [updated_at], [last_login]). *)
Module User.
Record t : Type := {
  id : string;
  email : string;
  full_name : string;
  roll_number : string;
  branch : string;
  year : string;
  phone_number : string;
  status : string;
  created_at : string;
  updated_at : string;
  last_login : option string
}.
End User.

(** [Omit<User, 'id' | 'created_at' | 'updated_at'>], the argument of
    [register]. *)
Module NewUser.
Record t : Type := {
  email : string;
  full_name : string;
  roll_number : string;
  branch : string;
  year : string;
  phone_number : string;
  status : string;
  last_login : option string
}.
End NewUser.

(** The object literal [register] hands to [createRegistration]. *)
Module Registration.
Record t : Type := {
  user_id : string;
  registration_date : string;
  status : string;
  submission_status : string
}.
End Registration.

(** [interface AdminUser] *)
Module AdminUser.
Record t : Type := {
  id : string;
  username : string;
  email : string;
  role : string
}.

(** The record as the JavaScript object it is, properties in the order of
    the interface. *)
Definition to_value (a : t) : value :=
  Obj [("id", Str (id a)); ("username", Str (username a));
       ("email", Str (email a)); ("role", Str (role a))].
End AdminUser.

(** [interface AuthUser].  TypeScript's types are erased at run time and
    [initializeAuth] fills the fields from whatever [JSON.parse] returned, so
    a field holds a JavaScript value. *)
Module AuthUser.
Record t : Type := {
  id : value;
  email : value;
  full_name : value;
  roll_number : value;
  branch : value;
  year : value;
  phone_number : value;
  status : value
}.
End AuthUser.

(** What every call of the data service resolves to: [{ data?, error? }]. *)
Module Response.
Record t (A : Type) : Type := {
  data : option A;
  error : option string
}.
Arguments data {A} _.
Arguments error {A} _.
End Response.

(** The data service as the provider sees it: a black box with a state of
    its own.  A call may change that state and either resolves to a response
    or rejects. *)
Module Service.
Class t (S : Type) : Type := {
  getUserByEmail : string -> S -> S * outcome (Response.t User.t);
  getUserByRollNumber : string -> S -> S * outcome (Response.t User.t);
  updateUser : string -> string -> S -> S * outcome (Response.t User.t);
  createUser : NewUser.t -> S -> S * outcome (Response.t User.t);
  createRegistration :
    Registration.t -> S -> S * outcome (Response.t Registration.t);
  authenticateAdmin :
    string -> string -> S -> S * outcome (Response.t AdminUser.t)
}.
End Service.

(** The requests the provider sends to the data service. *)
Inductive request : Type :=
| GetUserByEmail (email : string)
| GetUserByRollNumber (roll_number : string)
| UpdateUser (id : string) (last_login : string)
| CreateUser (userData : NewUser.t)
| CreateRegistration (registration : Registration.t)
| AuthenticateAdmin (username password : string).

(** [{ success: boolean; error?: string }] *)
Record AuthResult : Type := {
  success : bool;
  error : option string
}.

(* ================================================================== *)
(** * The provider's world and its effects *)
(* ================================================================== *)

(** The four [useState] cells, the [localStorage] of the page, the data
    service and the reading of the clock.  A state setter is taken to have
    its effect at the call, which is what a dependent reads once the
    operation is over. *)
Record World (S : Type) : Type := {
  user : option AuthUser.t;
  admin : value;
  isLoading : bool;
  isInitialized : bool;
  localStorage : gmap string string;
  service : S;
  clock : string
}.
Arguments user {S} _.
Arguments admin {S} _.
Arguments isLoading {S} _.
Arguments isInitialized {S} _.
Arguments localStorage {S} _.
Arguments service {S} _.
Arguments clock {S} _.

(** Every effect an operation performs, in program order. *)
Inductive event : Type :=
| SetUser (u : option AuthUser.t)
| SetAdmin (a : value)
| SetIsLoading (b : bool)
| SetIsInitialized (b : bool)
| GetItem (key : string)
| SetItem (key content : string)
| RemoveItem (key : string)
| ConsoleError (message : string) (error : exn)
| Request (r : request).

(** The browser's storage quota: whether [localStorage.setItem] writes the
    content under the key, given what is stored.  Reading and removing
    always go through. *)
Class Quota : Type := {
  accepts : gmap string string -> string -> string -> bool
}.

(** One run of an operation: what it returned or threw, the world it left,
    the effects it performed and, for each effect, the world right after
    it. *)
Record Run (S A : Type) : Type := {
  value_of : outcome A;
  final : World S;
  log : list event;
  states : list (World S)
}.
Arguments value_of {S A} _.
Arguments final {S A} _.
Arguments log {S A} _.
Arguments states {S A} _.

Definition M (S A : Type) : Type := World S -> Run S A.

Section Effects.
Context {S : Type}.

Definition ret {A : Type} (a : A) : M S A :=
  fun w => {| value_of := Returns a; final := w; log := []; states := [] |}.

Definition throw {A : Type} (e : exn) : M S A :=
  fun w => {| value_of := Throws e; final := w; log := []; states := [] |}.

Definition bind {A B : Type} (m : M S A) (k : A -> M S B) : M S B :=
  fun w =>
    match m w with
    | {| value_of := Returns a; final := w1; log := l1; states := t1 |} =>
        match k a w1 with
        | {| value_of := o; final := w2; log := l2; states := t2 |} =>
            {| value_of := o; final := w2; log := l1 ++ l2;
               states := t1 ++ t2 |}
        end
    | {| value_of := Throws e; final := w1; log := l1; states := t1 |} =>
        {| value_of := Throws e; final := w1; log := l1; states := t1 |}
    end.

(** [try { body } catch (error) { handler }] *)
Definition try_catch {A : Type} (body : M S A) (handler : exn -> M S A)
    : M S A :=
  fun w =>
    match body w with
    | {| value_of := Returns a; final := w1; log := l1; states := t1 |} =>
        {| value_of := Returns a; final := w1; log := l1; states := t1 |}
    | {| value_of := Throws e; final := w1; log := l1; states := t1 |} =>
        match handler e w1 with
        | {| value_of := o; final := w2; log := l2; states := t2 |} =>
            {| value_of := o; final := w2; log := l1 ++ l2;
               states := t1 ++ t2 |}
        end
    end.

(** [try { body } finally { finalizer }]: the finalizer runs on every exit
    of the body; what the body returned or threw stands unless the finalizer
    itself throws. *)
Definition try_finally {A : Type} (body : M S A) (finalizer : M S unit)
    : M S A :=
  fun w =>
    match body w with
    | {| value_of := o; final := w1; log := l1; states := t1 |} =>
        match finalizer w1 with
        | {| value_of := Returns _; final := w2; log := l2; states := t2 |} =>
            {| value_of := o; final := w2; log := l1 ++ l2;
               states := t1 ++ t2 |}
        | {| value_of := Throws e; final := w2; log := l2; states := t2 |} =>
            {| value_of := Throws e; final := w2; log := l1 ++ l2;
               states := t1 ++ t2 |}
        end
    end.

(** [try { body } catch (error) { handler } finally { finalizer }] *)
Definition try_catch_finally {A : Type}
    (body : M S A) (handler : exn -> M S A) (finalizer : M S unit) : M S A :=
  try_finally (try_catch body handler) finalizer.

(** An effect that changes the world and cannot fail. *)
Definition effect (e : event) (f : World S -> World S) : M S unit :=
  fun w =>
    {| value_of := Returns tt; final := f w; log := [e]; states := [f w] |}.

Definition setUser (u : option AuthUser.t) : M S unit :=
  effect (SetUser u) (fun w =>
    {| user := u; admin := admin w; isLoading := isLoading w;
       isInitialized := isInitialized w; localStorage := localStorage w;
       service := service w; clock := clock w |}).

Definition setAdmin (a : value) : M S unit :=
  effect (SetAdmin a) (fun w =>
    {| user := user w; admin := a; isLoading := isLoading w;
       isInitialized := isInitialized w; localStorage := localStorage w;
       service := service w; clock := clock w |}).

Definition setIsLoading (b : bool) : M S unit :=
  effect (SetIsLoading b) (fun w =>
    {| user := user w; admin := admin w; isLoading := b;
       isInitialized := isInitialized w; localStorage := localStorage w;
       service := service w; clock := clock w |}).

Definition setIsInitialized (b : bool) : M S unit :=
  effect (SetIsInitialized b) (fun w =>
    {| user := user w; admin := admin w; isLoading := isLoading w;
       isInitialized := b; localStorage := localStorage w;
       service := service w; clock := clock w |}).

Definition with_localStorage (f : gmap string string -> gmap string string)
    (w : World S) : World S :=
  {| user := user w; admin := admin w; isLoading := isLoading w;
     isInitialized := isInitialized w; localStorage := f (localStorage w);
     service := service w; clock := clock w |}.

Definition with_service (s : S) (w : World S) : World S :=
  {| user := user w; admin := admin w; isLoading := isLoading w;
     isInitialized := isInitialized w; localStorage := localStorage w;
     service := s; clock := clock w |}.

(** [localStorage.getItem(key)]: the content, or [null]. *)
Definition localStorage_getItem (key : string) : M S (option string) :=
  fun w => {| value_of := Returns (localStorage w !! key); final := w;
              log := [GetItem key]; states := [w] |}.

(** [localStorage.setItem(key, content)]: the write, or a
    [QuotaExceededError] that leaves the storage as it was. *)
Definition localStorage_setItem {quota : Quota} (key content : string)
    : M S unit :=
  fun w =>
    if accepts (localStorage w) key content
    then effect (SetItem key content)
                (with_localStorage (insert key content)) w
    else throw QuotaExceededError w.

(** [localStorage.removeItem(key)] *)
Definition localStorage_removeItem (key : string) : M S unit :=
  effect (RemoveItem key) (with_localStorage (delete key)).

(** [console.error(message, error)] *)
Definition console_error (message : string) (error : exn) : M S unit :=
  effect (ConsoleError message error) (fun w => w).

(** [new Date().toISOString()] *)
Definition Date_now_toISOString : M S string :=
  fun w =>
    {| value_of := Returns (clock w); final := w; log := [];
       states := [] |}.

(** [await] of one call of the data service. *)
Definition await {A : Type} (r : request) (call : S -> S * outcome A)
    : M S A :=
  fun w =>
    let '(s, o) := call (service w) in
    {| value_of := o; final := with_service s w; log := [Request r];
       states := [with_service s w] |}.

(** A value that may throw, as a computation. *)
Definition lift {A : Type} (o : outcome A) : M S A :=
  match o with
  | Returns a => ret a
  | Throws e => throw e
  end.

(** [JSON.parse(text)] *)
Definition JSON_parse_or_throw {json : JSON} (text : string) : M S value :=
  match JSON_parse text with
  | Some v => ret v
  | None => throw SyntaxError
  end.

(** [a || b], the right operand evaluated only when the left one is
    falsy. *)
Definition or_else (a b : M S value) : M S value :=
  bind a (fun x => if truthy x then ret x else b).

End Effects.

Notation "x <~ m ;; k" := (bind m (fun x => k))
  (at level 100, m at next level, right associativity,
   format "'[v' x  <~  m  ;;  '/' k ']'").
Notation "m ;;; k" := (bind m (fun _ => k))
  (at level 100, right associativity,
   format "'[v' m  ;;;  '/' k ']'").

(** [if (stored)] on what [getItem] returned: [null] and the empty string
    are falsy. *)
Definition present (stored : option string) : option string :=
  match stored with
  | Some text => if String.eqb text "" then None else Some text
  | None => None
  end.

(* ================================================================== *)
(** * [MockDataService], as called by the provider *)
(* ================================================================== *)

Module MockDataService.
Section Calls.
Context {S : Type} {svc : Service.t S}.

Definition getUserByEmail (email : string) : M S (Response.t User.t) :=
  await (GetUserByEmail email) (Service.getUserByEmail email).

Definition getUserByRollNumber (roll : string) : M S (Response.t User.t) :=
  await (GetUserByRollNumber roll) (Service.getUserByRollNumber roll).

Definition updateUser (id last_login : string) : M S (Response.t User.t) :=
  await (UpdateUser id last_login) (Service.updateUser id last_login).

Definition createUser (userData : NewUser.t) : M S (Response.t User.t) :=
  await (CreateUser userData) (Service.createUser userData).

Definition createRegistration (r : Registration.t)
    : M S (Response.t Registration.t) :=
  await (CreateRegistration r) (Service.createRegistration r).

Definition authenticateAdmin (username password : string)
    : M S (Response.t AdminUser.t) :=
  await (AuthenticateAdmin username password)
        (Service.authenticateAdmin username password).

End Calls.
End MockDataService.

(* ================================================================== *)
(** * [AuthProvider] *)
(* ================================================================== *)

Definition failed (message : string) : AuthResult :=
  {| success := false; error := Some message |}.

Definition succeeded : AuthResult :=
  {| success := true; error := None |}.

Definition InvalidDomain : string :=
  "Please use your college email ID (@raghuenggcollege.in)".
Definition NotFound : string :=
  "No account found with this email or roll number".
Definition LoginFailed : string :=
  "An error occurred during login. Please try again.".
Definition DuplicateEmail : string :=
  "An account with this email already exists".
Definition DuplicateRollNumber : string :=
  "An account with this roll number already exists".
Definition CreateFailed : string :=
  "Failed to create account. Please try again.".
Definition RegistrationFailed : string :=
  "An error occurred during registration. Please try again.".
Definition InvalidCredentials : string := "Invalid credentials".
Definition AuthFailed : string := "Authentication failed. Please try again.".

(** The session user [login] builds from the fetched record. *)
Definition authUser_of (userData : User.t) : AuthUser.t :=
  {| AuthUser.id := Str (User.id userData);
     AuthUser.email := Str (User.email userData);
     AuthUser.full_name := Str (User.full_name userData);
     AuthUser.roll_number := Str (User.roll_number userData);
     AuthUser.branch := Str (User.branch userData);
     AuthUser.year := Str (User.year userData);
     AuthUser.phone_number := Str (User.phone_number userData);
     AuthUser.status := Str (User.status userData) |}.

(** The object [login] serialises under the key [user]. *)
Definition mirror_of (userData : User.t) : value :=
  Obj [("id", Str (User.id userData));
       ("name", Str (User.full_name userData));
       ("rollNumber", Str (User.roll_number userData));
       ("email", Str (User.email userData));
       ("branch", Str (User.branch userData));
       ("year", Str (User.year userData));
       ("phone", Str (User.phone_number userData));
       ("status", Str (User.status userData))].

(** A truthy [error] of a response. *)
Definition reports_error {A : Type} (r : Response.t A) : bool :=
  match Response.error r with
  | Some message => negb (String.eqb message "")
  | None => false
  end.

Section AuthProvider.
Context {S : Type} {svc : Service.t S} {json : JSON} {casing : Casing}
        {quota : Quota}.

(** The state of [useState] at the first render, over a given page. *)
Definition mount (storage : gmap string string) (s : S) (now : string)
    : World S :=
  {| user := None; admin := Null; isLoading := false;
     isInitialized := false; localStorage := storage; service := s;
     clock := now |}.

(** The object literal handed to [setUser] in [initializeAuth]. *)
Definition restored_user (userData : value) : M S AuthUser.t :=
  id <~ or_else (lift (get userData "id")) (ret (Str "user-1")) ;;
  email <~ lift (get userData "email") ;;
  full_name <~ or_else (lift (get userData "name"))
                       (lift (get userData "full_name")) ;;
  roll_number <~ or_else (lift (get userData "rollNumber"))
                         (lift (get userData "roll_number")) ;;
  branch <~ lift (get userData "branch") ;;
  year <~ lift (get userData "year") ;;
  phone_number <~ or_else (lift (get userData "phone"))
                          (lift (get userData "phone_number")) ;;
  status <~ or_else (lift (get userData "status")) (ret (Str "active")) ;;
  ret {| AuthUser.id := id; AuthUser.email := email;
         AuthUser.full_name := full_name;
         AuthUser.roll_number := roll_number; AuthUser.branch := branch;
         AuthUser.year := year; AuthUser.phone_number := phone_number;
         AuthUser.status := status |}.

Definition initializeAuth : M S unit :=
  try_catch_finally
    (storedUser <~ localStorage_getItem "user" ;;
     match present storedUser with
     | Some text =>
         userData <~ JSON_parse_or_throw text ;;
         u <~ restored_user userData ;;
         setUser (Some u)
     | None => ret tt
     end ;;;
     storedAdmin <~ localStorage_getItem "admin" ;;
     match present storedAdmin with
     | Some text =>
         adminData <~ JSON_parse_or_throw text ;;
         setAdmin adminData
     | None => ret tt
     end)
    (fun error =>
       console_error "Error initializing auth:" error ;;;
       localStorage_removeItem "user" ;;;
       localStorage_removeItem "admin")
    (setIsInitialized true).

Definition login (emailOrRoll password : string) : M S AuthResult :=
  setIsLoading true ;;;
  try_catch_finally
    (if includes emailOrRoll "@"
        && negb (endsWith emailOrRoll "@raghuenggcollege.in")
     then ret (failed InvalidDomain)
     else
       userResult <~
         (if includes emailOrRoll "@"
          then MockDataService.getUserByEmail emailOrRoll
          else MockDataService.getUserByRollNumber (toUpperCase emailOrRoll)) ;;
       match Response.data userResult with
       | None => ret (failed NotFound)
       | Some userData =>
           now <~ Date_now_toISOString ;;
           MockDataService.updateUser (User.id userData) now ;;;
           setUser (Some (authUser_of userData)) ;;;
           localStorage_setItem "user"
             (JSON_stringify (mirror_of userData)) ;;;
           ret succeeded
       end)
    (fun error =>
       console_error "Login error:" error ;;;
       ret (failed LoginFailed))
    (setIsLoading false).

Definition register (userData : NewUser.t) : M S AuthResult :=
  setIsLoading true ;;;
  try_catch_finally
    (existingUserByEmail <~
       MockDataService.getUserByEmail (NewUser.email userData) ;;
     match Response.data existingUserByEmail with
     | Some _ => ret (failed DuplicateEmail)
     | None =>
         existingUserByRoll <~
           MockDataService.getUserByRollNumber
             (NewUser.roll_number userData) ;;
         match Response.data existingUserByRoll with
         | Some _ => ret (failed DuplicateRollNumber)
         | None =>
             userResult <~ MockDataService.createUser userData ;;
             if reports_error userResult
             then ret (failed CreateFailed)
             else
               created <~
                 match Response.data userResult with
                 | Some u => ret u
                 | None => throw TypeError
                 end ;;
               now <~ Date_now_toISOString ;;
               MockDataService.createRegistration
                 {| Registration.user_id := User.id created;
                    Registration.registration_date := now;
                    Registration.status := "active";
                    Registration.submission_status := "none" |} ;;;
               ret succeeded
         end
     end)
    (fun error =>
       console_error "Registration error:" error ;;;
       ret (failed RegistrationFailed))
    (setIsLoading false).

Definition logout : M S unit :=
  setUser None ;;;
  localStorage_removeItem "user".

Definition adminLogin (username password : string) : M S AuthResult :=
  setIsLoading true ;;;
  try_catch_finally
    (result <~ MockDataService.authenticateAdmin username password ;;
     match Response.data result with
     | Some a =>
         setAdmin (AdminUser.to_value a) ;;;
         localStorage_setItem "admin"
           (JSON_stringify (AdminUser.to_value a)) ;;;
         ret succeeded
     | None => ret (failed InvalidCredentials)
     end)
    (fun error =>
       console_error "Admin login error:" error ;;;
       ret (failed AuthFailed))
    (setIsLoading false).

Definition adminLogout : M S unit :=
  setAdmin Null ;;;
  localStorage_removeItem "admin".

(** [isAuthenticated: !!user] and [isAdminAuthenticated: !!admin] *)
Definition isAuthenticated (w : World S) : bool :=
  match user w with Some _ => true | None => false end.

Definition isAdminAuthenticated (w : World S) : bool := truthy (admin w).

End AuthProvider.

(* ================================================================== *)
(** * A data service and a JSON codec to run the provider on *)
(* ================================================================== *)

(** Modelled from the spec: the backing store of [MockDataService]
    ([@/lib/mockData], not part of the sources at hand).  Sections 1, 3 and 6
    of the specification describe it as CRUD over a list of records: the
    look-ups answer the record with the given e-mail address or roll number,
    [createUser] assigns the identity and the timestamps and refuses a second
    record with the same e-mail address or roll number, [updateUser] changes
    the named record, [authenticateAdmin] answers the admin whose credentials
    match.  No call rejects. *)
Module MockData.

Record store : Type := {
  users : list User.t;
  registrations : list Registration.t;
  admins : list (AdminUser.t * string);
  today : string
}.

Definition by_email (email : string) (u : User.t) : bool :=
  String.eqb (User.email u) email.

Definition by_roll_number (roll : string) (u : User.t) : bool :=
  String.eqb (User.roll_number u) roll.

Definition by_id (id : string) (u : User.t) : bool :=
  String.eqb (User.id u) id.

Definition found {A : Type} (a : option A) : Response.t A :=
  {| Response.data := a; Response.error := None |}.

Definition refused {A : Type} (message : string) : Response.t A :=
  {| Response.data := None; Response.error := Some message |}.

Definition getUserByEmail (email : string) (s : store)
    : store * outcome (Response.t User.t) :=
  (s, Returns (found (List.find (by_email email) (users s)))).

Definition getUserByRollNumber (roll : string) (s : store)
    : store * outcome (Response.t User.t) :=
  (s, Returns (found (List.find (by_roll_number roll) (users s)))).

Definition touch (id last_login : string) (u : User.t) : User.t :=
  if by_id id u then
    {| User.id := User.id u; User.email := User.email u;
       User.full_name := User.full_name u;
       User.roll_number := User.roll_number u; User.branch := User.branch u;
       User.year := User.year u; User.phone_number := User.phone_number u;
       User.status := User.status u; User.created_at := User.created_at u;
       User.updated_at := User.updated_at u;
       User.last_login := Some last_login |}
  else u.

Definition updateUser (id last_login : string) (s : store)
    : store * outcome (Response.t User.t) :=
  let users' := List.map (touch id last_login) (users s) in
  ({| users := users'; registrations := registrations s;
      admins := admins s; today := today s |},
   Returns
     match List.find (by_id id) users' with
     | Some u => found (Some u)
     | None => refused "User not found"
     end).

Definition fresh_id (s : store) : string :=
  "user-" +:+ pretty.pretty (Datatypes.S (length (users s))).

(** The record the store makes of a registration. *)
Definition record_of (d : NewUser.t) (s : store) : User.t :=
  {| User.id := fresh_id s; User.email := NewUser.email d;
     User.full_name := NewUser.full_name d;
     User.roll_number := NewUser.roll_number d;
     User.branch := NewUser.branch d; User.year := NewUser.year d;
     User.phone_number := NewUser.phone_number d;
     User.status := NewUser.status d; User.created_at := today s;
     User.updated_at := today s;
     User.last_login := NewUser.last_login d |}.

Definition createUser (d : NewUser.t) (s : store)
    : store * outcome (Response.t User.t) :=
  if existsb (by_email (NewUser.email d)) (users s)
     || existsb (by_roll_number (NewUser.roll_number d)) (users s)
  then (s, Returns (refused "duplicate key value"))
  else
    let u := record_of d s in
    ({| users := users s ++ [u]; registrations := registrations s;
        admins := admins s; today := today s |},
     Returns (found (Some u))).

Definition createRegistration (r : Registration.t) (s : store)
    : store * outcome (Response.t Registration.t) :=
  ({| users := users s; registrations := registrations s ++ [r];
      admins := admins s; today := today s |},
   Returns (found (Some r))).

Definition credentials (username password : string)
    (entry : AdminUser.t * string) : bool :=
  String.eqb (AdminUser.username (fst entry)) username
  && String.eqb (snd entry) password.

Definition authenticateAdmin (username password : string) (s : store)
    : store * outcome (Response.t AdminUser.t) :=
  (s, Returns (found
     (option_map fst (List.find (credentials username password) (admins s))))).

#[global] Instance service : Service.t store := {|
  Service.getUserByEmail := getUserByEmail;
  Service.getUserByRollNumber := getUserByRollNumber;
  Service.updateUser := updateUser;
  Service.createUser := createUser;
  Service.createRegistration := createRegistration;
  Service.authenticateAdmin := authenticateAdmin
|}.

(** The store behind a service whose [updateUser] is any behaviour at all:
    it may resolve to whatever it likes, change the store, or reject. *)
Definition with_updateUser
    (update : string -> string -> store
              -> store * outcome (Response.t User.t))
    : Service.t store := {|
  Service.getUserByEmail := getUserByEmail;
  Service.getUserByRollNumber := getUserByRollNumber;
  Service.updateUser := update;
  Service.createUser := createUser;
  Service.createRegistration := createRegistration;
  Service.authenticateAdmin := authenticateAdmin
|}.

End MockData.

(** The runtime's [JSON] on the documents the provider itself writes: an
    object whose properties are strings free of quotes, backslashes and
    control characters, printed without white space.  [parse] rejects every
    other text, which agrees with [JSON.parse] on text that is not JSON at
    all.  The closed examples below run on this codec; the theorems hold for
    any [JSON]. *)
Module FlatJSON.

Definition dquote : ascii := ascii_of_nat 34.
Definition backslash : ascii := ascii_of_nat 92.

Definition quoted (s : string) : string :=
  String dquote (s +:+ String dquote EmptyString).

Definition member (p : string * value) : list string :=
  match p with
  | (k, Str v) => [quoted k +:+ ":" +:+ quoted v]
  | _ => []
  end.

Definition stringify (v : value) : string :=
  match v with
  | Obj props => "{" +:+ String.concat "," (flat_map member props) +:+ "}"
  | Str s => quoted s
  | _ => "null"
  end.

(** The characters of a string literal up to its closing quote, and the
    text after it. *)
Fixpoint literal (text : string) : option (string * string) :=
  match text with
  | EmptyString => None
  | String c rest =>
      if Ascii.eqb c dquote then Some (EmptyString, rest)
      else if Ascii.eqb c backslash || (nat_of_ascii c <? 32)%nat then None
      else match literal rest with
           | Some (s, rest') => Some (String c s, rest')
           | None => None
           end
  end.

(** [obj[k] = v]: a repeated key keeps its place and takes the last
    value. *)
Fixpoint define (k : string) (v : value) (props : list (string * value))
    : list (string * value) :=
  match props with
  | [] => [(k, v)]
  | (k', v') :: rest =>
      if String.eqb k k' then (k, v) :: rest else (k', v') :: define k v rest
  end.

(** The members of an object after its opening brace, one per unit of
    fuel. *)
Fixpoint object (fuel : nat) (acc : list (string * value)) (text : string)
    : option value :=
  match fuel, text with
  | Datatypes.S fuel', String q rest =>
      if Ascii.eqb q dquote then
        match literal rest with
        | Some (k, String ":" (String q' rest')) =>
            if Ascii.eqb q' dquote then
              match literal rest' with
              | Some (v, "}") => Some (Obj (define k (Str v) acc))
              | Some (v, String "," rest'') =>
                  object fuel' (define k (Str v) acc) rest''
              | _ => None
              end
            else None
        | _ => None
        end
      else None
  | _, _ => None
  end.

Definition parse (text : string) : option value :=
  match text with
  | "{}" => Some (Obj [])
  | String "{" rest => object (String.length rest) [] rest
  | _ => None
  end.

#[global] Instance codec : JSON := {|
  JSON_parse := parse;
  JSON_stringify := stringify
|}.

End FlatJSON.

(** A runtime whose case mappings know the ASCII letters and the sharp s:
    [toUpperCase] writes the small sharp s as [SS] and leaves the capital
    one, [toLowerCase] writes the capital sharp s as the small one.  This
    agrees with [String.prototype] on text made of ASCII characters and
    these two letters; the closed examples below stay within it. *)
Module Latin.

(** The two bytes of the small sharp s and the three of the capital one. *)
Definition small_sharp_s : string := "ß".
Definition capital_sharp_s : string := "ẞ".

Definition lower_char (c : ascii) : ascii :=
  if is_upper c then ascii_of_nat (nat_of_ascii c + 32) else c.

Fixpoint upper (s : string) : string :=
  match s with
  | EmptyString => EmptyString
  | String c rest =>
      match rest with
      | String d rest' =>
          if Ascii.eqb c (ascii_of_nat 195) && Ascii.eqb d (ascii_of_nat 159)
          then String "S" (String "S" (upper rest'))
          else String (upper_char c) (upper rest)
      | EmptyString => String (upper_char c) EmptyString
      end
  end.

Fixpoint lower (s : string) : string :=
  match s with
  | EmptyString => EmptyString
  | String c rest =>
      match rest with
      | String d (String e rest') =>
          if Ascii.eqb c (ascii_of_nat 225) && Ascii.eqb d (ascii_of_nat 186)
             && Ascii.eqb e (ascii_of_nat 158)
          then String (ascii_of_nat 195)
                 (String (ascii_of_nat 159) (lower rest'))
          else String (lower_char c) (lower rest)
      | _ => String (lower_char c) (lower rest)
      end
  end.

#[global] Instance casing : Casing.
Proof.
  refine {| toUpperCase := upper; toLowerCase := lower |}.
  intros before after c Hc.
  assert (Hstep : forall x y s,
            upper (String x (String y s))
            = if Ascii.eqb x (ascii_of_nat 195)
                 && Ascii.eqb y (ascii_of_nat 159)
              then String "S" (String "S" (upper s))
              else String (upper_char x) (upper (String y s)))
    by reflexivity.
  assert (Hhead : forall s,
            upper (String c s) = String (upper_char c) (upper s)).
  { intros s. destruct s as [| d s]; [reflexivity |].
    rewrite Hstep. replace (Ascii.eqb c (ascii_of_nat 195)) with false;
      [reflexivity |].
    symmetry. apply Ascii.eqb_neq. intros ->. discriminate. }
  assert (Htail : forall d, Ascii.eqb d (ascii_of_nat 195)
                            && Ascii.eqb c (ascii_of_nat 159) = false).
  { intros d. replace (Ascii.eqb c (ascii_of_nat 159)) with false;
      [apply andb_false_r |].
    symmetry. apply Ascii.eqb_neq. intros ->. discriminate. }
  assert (H : forall s,
            upper (s +:+ String c after)
            = upper s +:+ String (upper_char c) (upper after)
            /\ forall d,
                 upper (String d s +:+ String c after)
                 = upper (String d s)
                   +:+ String (upper_char c) (upper after)).
  { induction s as [| x s [IH1 IH2]].
    - split; [apply Hhead |]. intros d.
      change (String d "" +:+ String c after)
        with (String d (String c after)).
      rewrite Hstep, Htail, Hhead. reflexivity.
    - split; [apply IH2 |]. intros d.
      change (String d (String x s) +:+ String c after)
        with (String d (String x (s +:+ String c after))).
      rewrite !Hstep.
      destruct (Ascii.eqb d (ascii_of_nat 195)
                && Ascii.eqb x (ascii_of_nat 159)).
      + rewrite IH1. reflexivity.
      + change (String x (s +:+ String c after))
          with (String x s +:+ String c after).
        rewrite IH2. reflexivity. }
  apply H.
Defined.

End Latin.

(** A browser that accepts every write, and one whose storage is full. *)
Module Roomy.
#[global] Instance quota : Quota := {| accepts := fun _ _ _ => true |}.
End Roomy.

Module Full.
Definition quota : Quota := {| accepts := fun _ _ _ => false |}.
End Full.

(** A data service that behaves as [MockData] except that every
    [updateUser] rejects: one of the behaviours a black-box service can
    show. *)
Module RejectingUpdates.

Definition updateUser (id last_login : string) (s : MockData.store)
    : MockData.store * outcome (Response.t User.t) :=
  (s, Throws (Rejected "update failed")).

Definition service : Service.t MockData.store := {|
  Service.getUserByEmail := MockData.getUserByEmail;
  Service.getUserByRollNumber := MockData.getUserByRollNumber;
  Service.updateUser := updateUser;
  Service.createUser := MockData.createUser;
  Service.createRegistration := MockData.createRegistration;
  Service.authenticateAdmin := MockData.authenticateAdmin
|}.

End RejectingUpdates.

(* ================================================================== *)
(** * What the properties observe *)
(* ================================================================== *)

(** The requests sent to the data service, in order. *)
Fixpoint requests (l : list event) : list request :=
  match l with
  | [] => []
  | Request r :: rest => r :: requests rest
  | _ :: rest => requests rest
  end.

(** The values written to [isLoading], in order. *)
Fixpoint loading_writes (l : list event) : list bool :=
  match l with
  | [] => []
  | SetIsLoading b :: rest => b :: loading_writes rest
  | _ :: rest => loading_writes rest
  end.

(** The writes to a session: [setUser], [setAdmin], and any write to or
    removal from [localStorage]. *)
Definition session_write (e : event) : bool :=
  match e with
  | SetUser _ | SetAdmin _ | SetItem _ _ | RemoveItem _ => true
  | _ => false
  end.

(** The look-up [login] delegates to. *)
Definition find_user {S : Type} {svc : Service.t S} {casing : Casing}
    (emailOrRoll : string)
    : S -> S * outcome (Response.t User.t) :=
  if includes emailOrRoll "@"
  then Service.getUserByEmail emailOrRoll
  else Service.getUserByRollNumber (toUpperCase emailOrRoll).

(** The request [login] looks the identifier up with. *)
Definition find_request {casing : Casing} (emailOrRoll : string)
    : request :=
  if includes emailOrRoll "@"
  then GetUserByEmail emailOrRoll
  else GetUserByRollNumber (toUpperCase emailOrRoll).

(** Non-empty content under a key that [JSON.parse] rejects. *)
Definition malformed {json : JSON} (stored : option string) : Prop :=
  exists text, present stored = Some text /\ JSON_parse text = None.

(** A call that raised [isLoading] first, lowered it last, wrote it at no
    other point, and returned to its caller: in every world the call went
    through before its last effect [isLoading] is [true], and the world
    after its last effect is the one it leaves, where [isLoading] is
    [false]. *)
Definition loading_bracket {S A : Type} (r : Run S A) : Prop :=
  (exists a, value_of r = Returns a)
  /\ (exists mid, log r = SetIsLoading true :: mid ++ [SetIsLoading false]
                  /\ loading_writes mid = [])
  /\ Forall (fun w => isLoading w = true) (removelast (states r))
  /\ removelast (states r) <> []
  /\ last (states r) = Some (final r)
  /\ isLoading (final r) = false.

(** The calls a dependent of the context can make. *)
Inductive action : Type :=
| InitializeAuth
| Login (emailOrRoll password : string)
| Register (userData : NewUser.t)
| Logout
| AdminLogin (username password : string)
| AdminLogout.

Section Lifetime.
Context {S : Type} {svc : Service.t S} {json : JSON} {casing : Casing}
        {quota : Quota}.

Definition perform (a : action) (w : World S) : World S :=
  match a with
  | InitializeAuth => final (initializeAuth w)
  | Login emailOrRoll password => final (login emailOrRoll password w)
  | Register userData => final (register userData w)
  | Logout => final (logout w)
  | AdminLogin username password => final (adminLogin username password w)
  | AdminLogout => final (adminLogout w)
  end.

(** The worlds the provider can be in between two calls: the first render,
    then calls, one at a time, while the page's storage, the data service
    and the clock may move on their own between calls. *)
Inductive between_calls : World S -> Prop :=
| at_mount storage s now :
    between_calls (mount storage s now)
| after_call a w :
    between_calls w -> between_calls (perform a w)
| after_idle storage s now w :
    between_calls w ->
    between_calls
      {| user := user w; admin := admin w; isLoading := isLoading w;
         isInitialized := isInitialized w; localStorage := storage;
         service := s; clock := now |}.

(** The page reloaded: React state starts over, [localStorage] and the
    data service stay. *)
Definition reload (w : World S) : World S :=
  mount (localStorage w) (service w) (clock w).

End Lifetime.

(** ** Data for the closed examples *)

Definition alice : User.t :=
  {| User.id := "user-1"; User.email := "alice@raghuenggcollege.in";
     User.full_name := "Alice"; User.roll_number := "ABC123";
     User.branch := "CSE"; User.year := "2"; User.phone_number := "9000000000";
     User.status := "active"; User.created_at := "2024-01-01T00:00:00.000Z";
     User.updated_at := "2024-01-01T00:00:00.000Z";
     User.last_login := None |}.

Definition root : AdminUser.t :=
  {| AdminUser.id := "admin-1"; AdminUser.username := "root";
     AdminUser.email := "root@raghuenggcollege.in";
     AdminUser.role := "super_admin" |}.

Definition empty_store : MockData.store :=
  {| MockData.users := []; MockData.registrations := [];
     MockData.admins := [(root, "s3cret")];
     MockData.today := "2024-02-01T00:00:00.000Z" |}.

Definition alice_store : MockData.store :=
  {| MockData.users := [alice]; MockData.registrations := [];
     MockData.admins := [(root, "s3cret")];
     MockData.today := "2024-02-01T00:00:00.000Z" |}.

Definition noon : string := "2024-02-01T12:00:00.000Z".

(** The registration of the specification's example. *)
Definition inst_edu : NewUser.t :=
  {| NewUser.email := "a@inst.edu"; NewUser.full_name := "A";
     NewUser.roll_number := "R1"; NewUser.branch := "ECE";
     NewUser.year := "1"; NewUser.phone_number := "9111111111";
     NewUser.status := "active"; NewUser.last_login := None |}.

(** The same registration with an address of the college. *)
Definition college : NewUser.t :=
  {| NewUser.email := "a@raghuenggcollege.in"; NewUser.full_name := "A";
     NewUser.roll_number := "R1"; NewUser.branch := "ECE";
     NewUser.year := "1"; NewUser.phone_number := "9111111111";
     NewUser.status := "active"; NewUser.last_login := None |}.

(** A registration that repeats both the address and the roll number of
    [alice]. *)
Definition alice_again : NewUser.t :=
  {| NewUser.email := "alice@raghuenggcollege.in"; NewUser.full_name := "Al";
     NewUser.roll_number := "ABC123"; NewUser.branch := "EEE";
     NewUser.year := "3"; NewUser.phone_number := "9222222222";
     NewUser.status := "pending"; NewUser.last_login := None |}.

(** [localStorage] as [login] leaves it for [alice], and with a damaged
    [admin] record next to it. *)
Definition alice_page : gmap string string :=
  {[ "user" := FlatJSON.stringify (mirror_of alice) ]}.

Definition damaged_admin_page : gmap string string :=
  <[ "admin" := "{oops" ]> alice_page.

Definition damaged_user_page : gmap string string :=
  <[ "user" := "{oops" ]>
    {[ "admin" := FlatJSON.stringify (AdminUser.to_value root) ]}.

Definition blank_user_page : gmap string string :=
  {[ "user" := "" ]}.

(** A fresh page over the store that knows [alice]. *)
Definition alice_world : World MockData.store :=
  mount ∅ alice_store noon.

(** A fresh page over the store without users. *)
Definition empty_world : World MockData.store :=
  mount ∅ empty_store noon.

(** ** What the further properties observe *)

(** A record whose five fields with a fall-back in [initializeAuth] are
    non-empty strings. *)
Definition filled (u : User.t) : bool :=
  negb (String.eqb (User.id u) "")
  && negb (String.eqb (User.full_name u) "")
  && negb (String.eqb (User.roll_number u) "")
  && negb (String.eqb (User.phone_number u) "")
  && negb (String.eqb (User.status u) "").

(** A string as [a || b] sees it on the left of an absent property: itself
    when non-empty, [undefined] otherwise. *)
Definition or_undefined (s : string) : value :=
  if String.eqb s "" then Undefined else Str s.

(** A string with a literal fall-back: [s || fallback]. *)
Definition or_literal (s fallback : string) : value :=
  if String.eqb s "" then Str fallback else Str s.

(** The session user under the field names of [AuthUser], the other shape
    [initializeAuth] reads. *)
Definition canonical_of (userData : User.t) : value :=
  Obj [("id", Str (User.id userData));
       ("email", Str (User.email userData));
       ("full_name", Str (User.full_name userData));
       ("roll_number", Str (User.roll_number userData));
       ("branch", Str (User.branch userData));
       ("year", Str (User.year userData));
       ("phone_number", Str (User.phone_number userData));
       ("status", Str (User.status userData))].

(** A stored record that the first half of [initializeAuth] gets through:
    absent or empty, or parsed to something other than [null]. *)
Definition restorable {json : JSON} (stored : option string) : Prop :=
  match present stored with
  | None => True
  | Some text =>
      exists v, JSON_parse text = Some v /\ v <> Null /\ v <> Undefined
  end.

(** What the second half of [initializeAuth] leaves in the admin cell and in
    [localStorage], read off the stored [admin] record: nothing new when the
    record is absent or empty, the parsed value when it parses, and both
    records removed when it does not. *)
Definition admin_stage {S : Type} {json : JSON} (w : World S) (a : value)
    (st : gmap string string) : Prop :=
  match present (localStorage w !! "admin") with
  | None => a = admin w /\ st = localStorage w
  | Some text =>
      match JSON_parse text with
      | Some adminData => a = adminData /\ st = localStorage w
      | None =>
          a = admin w /\ st = delete "admin" (delete "user" (localStorage w))
      end
  end.


(** A record without a phone number and without a status. *)
Definition bob : User.t :=
  {| User.id := "user-2"; User.email := "bob@raghuenggcollege.in";
     User.full_name := "Bob"; User.roll_number := "XYZ789";
     User.branch := "ECE"; User.year := "1"; User.phone_number := "";
     User.status := ""; User.created_at := "2024-01-02T00:00:00.000Z";
     User.updated_at := "2024-01-02T00:00:00.000Z";
     User.last_login := None |}.

Definition bob_store : MockData.store :=
  {| MockData.users := [alice; bob]; MockData.registrations := [];
     MockData.admins := [(root, "s3cret")];
     MockData.today := "2024-02-01T00:00:00.000Z" |}.

(** Two data services that behave as [MockData] except that [createUser]
    answers an error, or answers neither a record nor an error. *)
Module FailingWrites.

Definition refuse (d : NewUser.t) (s : MockData.store)
    : MockData.store * outcome (Response.t User.t) :=
  (s, Returns (MockData.refused "insert failed")).

Definition answer_nothing (d : NewUser.t) (s : MockData.store)
    : MockData.store * outcome (Response.t User.t) :=
  (s, Returns (MockData.found None)).

Definition refusing : Service.t MockData.store := {|
  Service.getUserByEmail := MockData.getUserByEmail;
  Service.getUserByRollNumber := MockData.getUserByRollNumber;
  Service.updateUser := MockData.updateUser;
  Service.createUser := refuse;
  Service.createRegistration := MockData.createRegistration;
  Service.authenticateAdmin := MockData.authenticateAdmin
|}.

Definition silent : Service.t MockData.store := {|
  Service.getUserByEmail := MockData.getUserByEmail;
  Service.getUserByRollNumber := MockData.getUserByRollNumber;
  Service.updateUser := MockData.updateUser;
  Service.createUser := answer_nothing;
  Service.createRegistration := MockData.createRegistration;
  Service.authenticateAdmin := MockData.authenticateAdmin
|}.

End FailingWrites.

(** [FlatJSON] extended with the literal [null], which [JSON.parse] reads as
    [null]. *)
Module LiteralJSON.

Definition parse (text : string) : option value :=
  if String.eqb text "null" then Some Null else FlatJSON.parse text.

Definition codec : JSON := {|
  JSON_parse := parse;
  JSON_stringify := FlatJSON.stringify
|}.

End LiteralJSON.

Definition null_user_page : gmap string string :=
  <[ "user" := "null" ]>
    {[ "admin" := FlatJSON.stringify (AdminUser.to_value root) ]}.

Definition canonical_page : gmap string string :=
  {[ "user" := FlatJSON.stringify (canonical_of bob) ]}.

(* ================================================================== *)
(** * Properties *)
(* ================================================================== *)

(** ** Strings *)

Lemma prefix_at (c : ascii) (rest : string) :
  String.prefix "@" (String c rest) = Ascii.eqb c "@".
Proof.
  destruct c as [[] [] [] [] [] [] [] []]; destruct rest; reflexivity.
Qed.

Lemma includes_at_cons (c : ascii) (rest : string) :
  includes (String c rest) "@" = Ascii.eqb c "@" || includes rest "@".
Proof.
  change (includes (String c rest) "@")
    with (String.prefix "@" (String c rest) || includes rest "@").
  now rewrite prefix_at.
Qed.

Lemma endsWith_includes_at (s tail : string) :
  endsWith s (String "@" tail) = true -> includes s "@" = true.
Proof.
  induction s as [| c rest IH]; intros H.
  - discriminate.
  - rewrite includes_at_cons. cbn [endsWith] in H.
    apply orb_true_iff in H as [H | H].
    + apply String.eqb_eq in H. injection H as -> _. reflexivity.
    + rewrite (IH H). apply orb_true_r.
Qed.

Lemma append_nil (s : string) : "" +:+ s = s.
Proof. reflexivity. Qed.

Lemma append_cons (c : ascii) (s t : string) :
  String c s +:+ t = String c (s +:+ t).
Proof. reflexivity. Qed.

Lemma endsWith_spec (s suffix : string) :
  endsWith s suffix = true <-> exists before, s = before +:+ suffix.
Proof.
  split.
  - induction s as [| c rest IH]; cbn [endsWith]; intros H.
    + rewrite orb_false_r in H. apply String.eqb_eq in H. now exists "".
    + apply orb_true_iff in H as [H | H].
      * apply String.eqb_eq in H. now exists "".
      * destruct (IH H) as [before ->]. now exists (String c before).
  - intros [before ->].
    induction before as [| c before IH].
    + rewrite append_nil.
      destruct suffix; cbn [endsWith]; now rewrite String.eqb_refl.
    + rewrite append_cons. cbn [endsWith]. rewrite IH. apply orb_true_r.
Qed.

Lemma prefix_cons (c c' : ascii) (needle s : string) :
  String.prefix (String c needle) (String c' s)
  = if ascii_dec c c' then String.prefix needle s else false.
Proof. reflexivity. Qed.

Lemma prefix_spec (needle s : string) :
  String.prefix needle s = true <-> exists after, s = needle +:+ after.
Proof.
  split.
  - revert s. induction needle as [| c needle IH]; intros s H.
    + now exists s.
    + destruct s as [| c' s]; [discriminate |].
      rewrite prefix_cons in H.
      destruct (ascii_dec c c') as [<- |]; [| discriminate].
      destruct (IH s H) as [after ->]. now exists after.
  - intros [after ->]. induction needle as [| c needle IH].
    + destruct after; reflexivity.
    + rewrite append_cons, prefix_cons.
      destruct (ascii_dec c c); [exact IH | congruence].
Qed.

Lemma includes_spec (s needle : string) :
  includes s needle = true
  <-> exists before after, s = before +:+ needle +:+ after.
Proof.
  split.
  - induction s as [| c rest IH]; cbn [includes]; intros H.
    + rewrite orb_false_r in H. apply prefix_spec in H as [after ->].
      now exists "", after.
    + apply orb_true_iff in H as [H | H].
      * apply prefix_spec in H as [after ->]. now exists "", after.
      * destruct (IH H) as (before & after & ->).
        now exists (String c before), after.
  - intros (before & after & ->).
    induction before as [| c before IH].
    + rewrite append_nil.
      assert (H : String.prefix needle (needle +:+ after) = true)
        by (apply prefix_spec; eauto).
      destruct (needle +:+ after); cbn [includes]; rewrite H; reflexivity.
    + rewrite append_cons. cbn [includes]. rewrite IH. apply orb_true_r.
Qed.

Lemma upper_char_idempotent (c : ascii) :
  upper_char (upper_char c) = upper_char c.
Proof. destruct c as [[] [] [] [] [] [] [] []]; reflexivity. Qed.

Lemma lower_is_not_at (c : ascii) :
  is_lower c = true ->
  Ascii.eqb c "@" = false /\ Ascii.eqb (upper_char c) "@" = false.
Proof.
  destruct c as [[] [] [] [] [] [] [] []]; cbn; intros;
    try discriminate; auto.
Qed.

Lemma lower_is_ascii (c : ascii) :
  is_lower c = true ->
  is_ascii c = true /\ is_ascii (upper_char c) = true.
Proof.
  destruct c as [[] [] [] [] [] [] [] []]; cbn; intros;
    try discriminate; auto.
Qed.

Lemma append_unit (s t : string) (c : ascii) :
  (s +:+ String c "") +:+ t = s +:+ String c t.
Proof.
  induction s as [| x s IH]; [reflexivity |].
  rewrite !append_cons. now rewrite IH.
Qed.

(** Raising one ASCII letter, wherever it stands, leaves the upper-case
    form of a string as it is. *)
Lemma toUpperCase_raised_letter {casing : Casing} (before after : string)
    (c : ascii) :
  is_lower c = true ->
  toUpperCase (before +:+ String c after)
  = toUpperCase (before +:+ String (upper_char c) after).
Proof.
  intros Hc. destruct (lower_is_ascii c Hc) as [Ha Hu].
  rewrite !toUpperCase_around_ascii by assumption.
  now rewrite upper_char_idempotent.
Qed.

Lemma same_letter_at (a b : ascii) :
  same_letter a b = true -> Ascii.eqb a "@" = Ascii.eqb b "@".
Proof.
  unfold same_letter. intros H.
  apply orb_true_iff in H as [H | H]; [apply orb_true_iff in H as [H | H] |].
  - apply Ascii.eqb_eq in H. now subst.
  - apply andb_true_iff in H as [Hl H]. apply Ascii.eqb_eq in H. subst b.
    destruct (lower_is_not_at a Hl) as [-> ->]. reflexivity.
  - apply andb_true_iff in H as [Hl H]. apply Ascii.eqb_eq in H. subst a.
    destruct (lower_is_not_at b Hl) as [-> ->]. reflexivity.
Qed.

Lemma same_modulo_case_upper_after {casing : Casing} (a b before : string) :
  same_modulo_case a b = true ->
  toUpperCase (before +:+ a) = toUpperCase (before +:+ b).
Proof.
  revert b before.
  induction a as [| x a IH]; intros [| y b] before H; try discriminate.
  - reflexivity.
  - cbn in H. apply andb_true_iff in H as [Hxy Hab].
    assert (Hx : toUpperCase (before +:+ String x a)
                 = toUpperCase (before +:+ String y a)).
    { unfold same_letter in Hxy.
      apply orb_true_iff in Hxy as [Hxy | Hxy];
        [apply orb_true_iff in Hxy as [Hxy | Hxy] |].
      - apply Ascii.eqb_eq in Hxy. now subst.
      - apply andb_true_iff in Hxy as [Hl Hxy].
        apply Ascii.eqb_eq in Hxy. subst y.
        now apply toUpperCase_raised_letter.
      - apply andb_true_iff in Hxy as [Hl Hxy].
        apply Ascii.eqb_eq in Hxy. subst x. symmetry.
        now apply toUpperCase_raised_letter. }
    rewrite Hx, <- (append_unit before a y), <- (append_unit before b y).
    now apply IH.
Qed.

Lemma same_modulo_case_upper {casing : Casing} (a b : string) :
  same_modulo_case a b = true -> toUpperCase a = toUpperCase b.
Proof. exact (same_modulo_case_upper_after a b ""). Qed.

Lemma same_modulo_case_at (a b : string) :
  same_modulo_case a b = true -> includes a "@" = includes b "@".
Proof.
  revert b. induction a as [| x a IH]; intros [| y b] H; try discriminate.
  - reflexivity.
  - cbn in H. apply andb_true_iff in H as [Hxy Hab].
    rewrite !includes_at_cons. now rewrite (same_letter_at _ _ Hxy), (IH _ Hab).
Qed.

(** ** Running the provider *)

Ltac unfold_calls :=
  unfold MockDataService.getUserByEmail, MockDataService.getUserByRollNumber,
    MockDataService.updateUser, MockDataService.createUser,
    MockDataService.createRegistration, MockDataService.authenticateAdmin,
    await in *.

Ltac unfold_control :=
  unfold try_catch_finally, try_finally, try_catch, bind,
    localStorage_setItem in *.

(** Case analysis on every answer of the data service that the goal is
    waiting for. *)
Ltac service_cases :=
  repeat (cbn;
    match goal with
    | |- context [Service.getUserByEmail ?e ?s] =>
        destruct (Service.getUserByEmail e s) as [? [[[?|] ?]|?]]
    | |- context [Service.getUserByRollNumber ?e ?s] =>
        destruct (Service.getUserByRollNumber e s) as [? [[[?|] ?]|?]]
    | |- context [Service.updateUser ?i ?t ?s] =>
        destruct (Service.updateUser i t s) as [? [?|?]]
    | |- context [Service.createUser ?d ?s] =>
        destruct (Service.createUser d s) as [? [[[?|] ?]|?]]
    | |- context [Service.createRegistration ?d ?s] =>
        destruct (Service.createRegistration d s) as [? [?|?]]
    | |- context [Service.authenticateAdmin ?u ?p ?s] =>
        destruct (Service.authenticateAdmin u p s) as [? [[[?|] ?]|?]]
    | |- context [if ?b then _ else _] => destruct b
    end).

Section Properties.
Context {S : Type} {svc : Service.t S} {json : JSON} {casing : Casing}
        {quota : Quota}.

Lemma restored_user_inert (userData : value) (w : World S) :
  exists o,
    restored_user userData w
    = {| value_of := o; final := w; log := []; states := [] |}.
Proof.
  unfold restored_user, or_else, bind.
  destruct userData; cbn; eauto.
  repeat match goal with |- context [truthy ?v] => destruct (truthy v); cbn end;
    eauto.
Qed.

(** What [login] does once its look-up has found a record, by what
    [updateUser] answers and by whether the browser takes the write. *)
Lemma login_known_user (emailOrRoll password : string) (w : World S)
    (s1 s2 : S) (found : Response.t User.t) (userData : User.t)
    (o : outcome (Response.t User.t)) :
  includes emailOrRoll "@"
    && negb (endsWith emailOrRoll "@raghuenggcollege.in") = false ->
  find_user emailOrRoll (service w) = (s1, Returns found) ->
  Response.data found = Some userData ->
  Service.updateUser (User.id userData) (clock w) s1 = (s2, o) ->
  let r := login emailOrRoll password w in
  match o with
  | Returns _ =>
      if accepts (localStorage w) "user"
                 (JSON_stringify (mirror_of userData))
      then
        value_of r = Returns succeeded
        /\ final r =
             {| user := Some (authUser_of userData); admin := admin w;
                isLoading := false; isInitialized := isInitialized w;
                localStorage :=
                  <["user" := JSON_stringify (mirror_of userData)]>
                    (localStorage w);
                service := s2; clock := clock w |}
        /\ log r = [SetIsLoading true;
                    Request (find_request emailOrRoll);
                    Request (UpdateUser (User.id userData) (clock w));
                    SetUser (Some (authUser_of userData));
                    SetItem "user" (JSON_stringify (mirror_of userData));
                    SetIsLoading false]
      else
        value_of r = Returns (failed LoginFailed)
        /\ final r =
             {| user := Some (authUser_of userData); admin := admin w;
                isLoading := false; isInitialized := isInitialized w;
                localStorage := localStorage w;
                service := s2; clock := clock w |}
        /\ log r = [SetIsLoading true;
                    Request (find_request emailOrRoll);
                    Request (UpdateUser (User.id userData) (clock w));
                    SetUser (Some (authUser_of userData));
                    ConsoleError "Login error:" QuotaExceededError;
                    SetIsLoading false]
  | Throws e =>
      value_of r = Returns (failed LoginFailed)
      /\ final r =
           {| user := user w; admin := admin w;
              isLoading := false; isInitialized := isInitialized w;
              localStorage := localStorage w;
              service := s2; clock := clock w |}
      /\ log r = [SetIsLoading true;
                  Request (find_request emailOrRoll);
                  Request (UpdateUser (User.id userData) (clock w));
                  ConsoleError "Login error:" e;
                  SetIsLoading false]
  end.
Proof.
  intros Hdom Hfind Hdata Hupd.
  unfold login, find_user, find_request in *. unfold_calls. unfold_control.
  cbn. rewrite Hdom.
  destruct (includes emailOrRoll "@"); cbn; rewrite Hfind; cbn;
    rewrite Hdata; cbn; rewrite Hupd; destruct o; cbn;
    try destruct (accepts _ _ _); cbn; auto.
Qed.

(** C1.  For every identifier, every world and every two passwords, [login]
    with the one and [login] with the other return the same result, leave
    the same state and perform the same effects: the password has no
    influence on the outcome.  For an existing record, found by the
    look-up of an identifier that passes the domain check, no password is
    refused: [login] succeeds or fails with the generic [LoginFailed]
    message, and it succeeds, with the found record as the session, for
    every password once [updateUser] resolves and the browser takes the
    write of the mirror. *)
Theorem login_ignores_password (emailOrRoll : string) (w : World S) :
  (forall p1 p2 : string,
     value_of (login emailOrRoll p1 w) = value_of (login emailOrRoll p2 w)
     /\ final (login emailOrRoll p1 w) = final (login emailOrRoll p2 w)
     /\ log (login emailOrRoll p1 w) = log (login emailOrRoll p2 w))
  /\ (forall (s1 : S) (found : Response.t User.t) (userData : User.t),
        includes emailOrRoll "@"
          && negb (endsWith emailOrRoll "@raghuenggcollege.in") = false ->
        find_user emailOrRoll (service w) = (s1, Returns found) ->
        Response.data found = Some userData ->
        forall password : string,
          (value_of (login emailOrRoll password w) = Returns succeeded
           \/ value_of (login emailOrRoll password w)
              = Returns (failed LoginFailed))
          /\ (forall (s2 : S) (updated : Response.t User.t),
                Service.updateUser (User.id userData) (clock w) s1
                  = (s2, Returns updated) ->
                accepts (localStorage w) "user"
                        (JSON_stringify (mirror_of userData)) = true ->
                value_of (login emailOrRoll password w) = Returns succeeded
                /\ user (final (login emailOrRoll password w))
                   = Some (authUser_of userData))).
Proof.
  split; [intros p1 p2; repeat apply conj; reflexivity |].
  intros s1 found userData Hdom Hfind Hdata password. split.
  - destruct (Service.updateUser (User.id userData) (clock w) s1)
      as [s2 o] eqn:Hupd.
    pose proof (login_known_user _ password _ _ _ _ _ _
                  Hdom Hfind Hdata Hupd) as H.
    cbv zeta in H. destruct o; [destruct (accepts _ _ _) |];
      destruct H as (-> & _); auto.
  - intros s2 updated Hupd Hquota.
    pose proof (login_known_user _ password _ _ _ _ _ _
                  Hdom Hfind Hdata Hupd) as H.
    cbv zeta in H. rewrite Hquota in H. destruct H as (-> & -> & _). auto.
Qed.


(** C4.  An identifier that contains [@] and does not end with
    [@raghuenggcollege.in] makes [login] fail with the [InvalidDomain]
    message, for every password and every state of the data service.  The
    only effects are the two writes to [isLoading]: no look-up is sent and
    the service, the user session and [localStorage] stay as they were. *)
Theorem login_rejects_foreign_domain (emailOrRoll password : string)
    (w : World S) :
  includes emailOrRoll "@" = true ->
  endsWith emailOrRoll "@raghuenggcollege.in" = false ->
  let r := login emailOrRoll password w in
  value_of r = Returns (failed InvalidDomain)
  /\ log r = [SetIsLoading true; SetIsLoading false]
  /\ requests (log r) = []
  /\ service (final r) = service w
  /\ user (final r) = user w
  /\ localStorage (final r) = localStorage w.
Proof.
  intros Hat Hdom. unfold login. unfold_control. cbn.
  rewrite Hat, Hdom. cbn. auto 10.
Qed.

(** C5.  When the look-up by the e-mail address of the registration finds
    a record, [register] fails with the [DuplicateEmail] message and not
    with the [DuplicateRollNumber] one, whatever the roll number collides
    with: the look-up by e-mail address is the only request sent, the one by
    roll number is never reached. *)
Theorem register_checks_email_first (userData : NewUser.t) (w : World S)
    (s1 : S) (byEmail : Response.t User.t) (existing : User.t) :
  Service.getUserByEmail (NewUser.email userData) (service w)
    = (s1, Returns byEmail) ->
  Response.data byEmail = Some existing ->
  let r := register userData w in
  value_of r = Returns (failed DuplicateEmail)
  /\ value_of r <> Returns (failed DuplicateRollNumber)
  /\ requests (log r) = [GetUserByEmail (NewUser.email userData)].
Proof.
  intros Hfind Hdata. unfold register. unfold_calls. unfold_control. cbn.
  rewrite Hfind. cbn. rewrite Hdata. cbn. repeat split. discriminate.
Qed.

Lemma register_checks_roll_number_second (userData : NewUser.t) (w : World S)
    (s1 s2 : S) (byEmail byRoll : Response.t User.t) (existing : User.t) :
  Service.getUserByEmail (NewUser.email userData) (service w)
    = (s1, Returns byEmail) ->
  Response.data byEmail = None ->
  Service.getUserByRollNumber (NewUser.roll_number userData) s1
    = (s2, Returns byRoll) ->
  Response.data byRoll = Some existing ->
  value_of (register userData w) = Returns (failed DuplicateRollNumber).
Proof.
  intros Hfind Hdata Hroll Hdata'. unfold register. unfold_calls.
  unfold_control. cbn. rewrite Hfind. cbn. rewrite Hdata. cbn.
  rewrite Hroll. cbn. now rewrite Hdata'.
Qed.

(** C6, as amended.  For an identifier without [@] and every password, the
    look-up [login] sends is [getUserByRollNumber] on the upper-case form
    of the identifier.  Another identifier without [@] that has the same
    upper-case form therefore gives the same run of [login] and the same
    requests, whatever the passwords; and so does every identifier that
    differs from the first only in the case of ASCII letters. *)
Theorem login_upper_cases_roll_number (a p : string) (w : World S) :
  includes a "@" = false ->
  head (requests (log (login a p w)))
    = Some (GetUserByRollNumber (toUpperCase a))
  /\ (forall b q : string,
        includes b "@" = false ->
        toUpperCase a = toUpperCase b ->
        login a p w = login b q w
        /\ requests (log (login a p w)) = requests (log (login b q w)))
  /\ (forall b q : string,
        same_modulo_case a b = true ->
        login a p w = login b q w
        /\ requests (log (login a p w)) = requests (log (login b q w))).
Proof.
  intros Hat.
  assert (Hsame : forall b q : string,
            includes b "@" = false ->
            toUpperCase a = toUpperCase b ->
            login a p w = login b q w
            /\ requests (log (login a p w)) = requests (log (login b q w))).
  { intros b q Hb Hupper.
    assert (Hlogin : login a p w = login b q w).
    { unfold login. rewrite Hat, Hb. cbn. now rewrite Hupper. }
    split; [exact Hlogin | now rewrite Hlogin]. }
  repeat apply conj.
  - unfold login. unfold_calls. unfold_control. cbn. rewrite Hat. cbn.
    service_cases; reflexivity.
  - exact Hsame.
  - intros b q Hcase. apply Hsame.
    + now rewrite <- (same_modulo_case_at _ _ Hcase).
    + now apply same_modulo_case_upper.
Qed.

(** C10.  For every registration and every answer of the data service,
    [register] leaves the user session, the admin session and
    [localStorage] as they were, and among its effects there is no
    [setUser], no [setAdmin] and no write to or removal from
    [localStorage]. *)
Theorem register_leaves_sessions (userData : NewUser.t) (w : World S) :
  let r := register userData w in
  user (final r) = user w
  /\ admin (final r) = admin w
  /\ localStorage (final r) = localStorage w
  /\ List.filter session_write (log r) = [].
Proof.
  unfold register, reports_error. unfold_calls. unfold_control.
  service_cases; cbn; auto.
Qed.


(** C8, as amended.  Let the identifier pass the domain check and its
    look-up resolve to a record.  For every response [updateUser] resolves
    to, an error response included, [login] succeeds, makes the fetched
    record the current session and stores its mirror under [user], provided
    the browser takes the write; when [setItem] throws, [login] fails with
    the [LoginFailed] message and nothing is stored.  When [updateUser]
    rejects, [login] fails with the [LoginFailed] message and leaves the
    user session and [localStorage] as they were. *)
Theorem login_survives_update_response (emailOrRoll password : string)
    (w : World S) (s1 s2 : S) (found : Response.t User.t)
    (userData : User.t) (o : outcome (Response.t User.t)) :
  includes emailOrRoll "@"
    && negb (endsWith emailOrRoll "@raghuenggcollege.in") = false ->
  find_user emailOrRoll (service w) = (s1, Returns found) ->
  Response.data found = Some userData ->
  Service.updateUser (User.id userData) (clock w) s1 = (s2, o) ->
  let r := login emailOrRoll password w in
  match o with
  | Returns _ =>
      if accepts (localStorage w) "user"
                 (JSON_stringify (mirror_of userData))
      then
        value_of r = Returns succeeded
        /\ user (final r) = Some (authUser_of userData)
        /\ localStorage (final r)
           = <["user" := JSON_stringify (mirror_of userData)]>
               (localStorage w)
      else
        value_of r = Returns (failed LoginFailed)
        /\ localStorage (final r) = localStorage w
  | Throws _ =>
      value_of r = Returns (failed LoginFailed)
      /\ user (final r) = user w
      /\ localStorage (final r) = localStorage w
  end.
Proof.
  intros Hdom Hfind Hdata Hupd r.
  pose proof (login_known_user _ password _ _ _ _ _ _
                Hdom Hfind Hdata Hupd) as H.
  cbv zeta in H. subst r.
  destruct o; [destruct (accepts _ _ _) |];
    destruct H as (-> & -> & _); cbn; auto.
Qed.

(** C7.  In every world [logout] returns, leaves no user session, removes
    the [user] record of [localStorage], sends no request to the data
    service and leaves the service and the admin session alone.  A second
    [logout] changes nothing, and [logout] without a session and a stored
    record is a no-op.  [initializeAuth] after [logout], on the same state
    or after a reload of the page, restores no user session. *)
Theorem logout_clears_user_session (w : World S) :
  let r := logout w in
  value_of r = Returns tt
  /\ user (final r) = None
  /\ localStorage (final r) = delete "user" (localStorage w)
  /\ requests (log r) = []
  /\ service (final r) = service w
  /\ admin (final r) = admin w
  /\ final (logout (final r)) = final r
  /\ (user w = None -> localStorage w !! "user" = None -> final r = w)
  /\ user (final (initializeAuth (final r))) = None
  /\ user (final (initializeAuth (reload (final r)))) = None.
Proof.
  unfold logout. unfold_control. cbn.
  repeat split.
  - unfold with_localStorage. cbn. now rewrite delete_delete_eq.
  - intros Hu Hs. destruct w; cbn in *. unfold with_localStorage. cbn.
    subst. now rewrite delete_id.
  - unfold initializeAuth. unfold_control. cbn.
    rewrite lookup_delete_eq. cbn.
    destruct (present (delete "user" (localStorage w) !! "admin")); cbn;
      [unfold JSON_parse_or_throw; destruct (JSON_parse _) |]; reflexivity.
  - unfold initializeAuth, reload. unfold_control. cbn.
    rewrite lookup_delete_eq. cbn.
    destruct (present (delete "user" (localStorage w) !! "admin")); cbn;
      [unfold JSON_parse_or_throw; destruct (JSON_parse _) |]; reflexivity.
Qed.

Lemma initializeAuth_on_malformed (w : World S) :
  malformed (localStorage w !! "user")
    \/ malformed (localStorage w !! "admin") ->
  exists u l t,
    initializeAuth w =
      {| value_of := Returns tt;
         final :=
           {| user := u; admin := admin w; isLoading := isLoading w;
              isInitialized := true;
              localStorage := delete "admin" (delete "user" (localStorage w));
              service := service w; clock := clock w |};
         log := l; states := t |}
    /\ (malformed (localStorage w !! "user") -> u = user w).
Proof.
  intros Hbad. unfold initializeAuth. unfold_control. cbn.
  destruct (present (localStorage w !! "user")) as [text |] eqn:Huser; cbn.
  - unfold JSON_parse_or_throw at 1.
    destruct (JSON_parse text) as [userData |] eqn:Hparse; cbn.
    + destruct (restored_user_inert userData w) as [o ->].
      destruct o as [u | e]; cbn.
      * destruct Hbad as [(text' & Hp & Hn) | (text' & Hp & Hn)];
          [congruence |].
        rewrite Hp. cbn. unfold JSON_parse_or_throw. rewrite Hn. cbn.
        do 3 eexists. split; [reflexivity |].
        intros (text'' & Hp' & Hn'). congruence.
      * do 3 eexists. split; reflexivity.
    + do 3 eexists. split; reflexivity.
  - destruct Hbad as [(text' & Hp & Hn) | (text' & Hp & Hn)];
      [congruence |].
    rewrite Hp. cbn. unfold JSON_parse_or_throw. rewrite Hn. cbn.
    do 3 eexists. split; reflexivity.
Qed.

(** C2, as amended.  When the [user] key or the [admin] key of
    [localStorage] holds non-empty content that [JSON.parse] rejects,
    [initializeAuth] returns without throwing, removes both keys, sets
    [isInitialized], restores no admin session, and, when it is the [user]
    record that is malformed, restores no user session either. *)
Theorem initializeAuth_discards_malformed (w : World S) :
  malformed (localStorage w !! "user")
    \/ malformed (localStorage w !! "admin") ->
  let r := initializeAuth w in
  value_of r = Returns tt
  /\ localStorage (final r) = delete "admin" (delete "user" (localStorage w))
  /\ isInitialized (final r) = true
  /\ admin (final r) = admin w
  /\ (malformed (localStorage w !! "user") -> user (final r) = user w).
Proof.
  intros Hbad r.
  destruct (initializeAuth_on_malformed w Hbad) as (u & l & t & Hr & Hu).
  subst r. rewrite Hr. cbn. auto.
Qed.


Lemma initializeAuth_keeps_isLoading (w : World S) :
  isLoading (final (initializeAuth w)) = isLoading w.
Proof.
  unfold initializeAuth. unfold_control. cbn.
  destruct (present (localStorage w !! "user")) as [text |]; cbn.
  - unfold JSON_parse_or_throw at 1.
    destruct (JSON_parse text) as [userData |]; cbn.
    + destruct (restored_user_inert userData w) as [o ->].
      destruct o; cbn; [| reflexivity].
      destruct (present (localStorage w !! "admin")); cbn;
        [unfold JSON_parse_or_throw; destruct (JSON_parse _) |]; reflexivity.
    + reflexivity.
  - destruct (present (localStorage w !! "admin")); cbn;
      [unfold JSON_parse_or_throw; destruct (JSON_parse _) |]; reflexivity.
Qed.

(** The writes to [isLoading] of a finished call are its first and its last
    effect. *)
Ltac bracket :=
  cbn;
  repeat apply conj;
  [ eexists; reflexivity
  | match goal with
    | |- exists mid, ?l = _ /\ _ =>
        exists (removelast (List.tl l)); split; reflexivity
    end
  | repeat constructor
  | discriminate
  | reflexivity
  | reflexivity ].

Lemma login_brackets_loading (emailOrRoll password : string) (w : World S) :
  loading_bracket (login emailOrRoll password w).
Proof.
  unfold loading_bracket, login. unfold_calls. unfold_control.
  service_cases; bracket.
Qed.

Lemma register_brackets_loading (userData : NewUser.t) (w : World S) :
  loading_bracket (register userData w).
Proof.
  unfold loading_bracket, register, reports_error. unfold_calls.
  unfold_control. service_cases; bracket.
Qed.

Lemma adminLogin_brackets_loading (username password : string)
    (w : World S) :
  loading_bracket (adminLogin username password w).
Proof.
  unfold loading_bracket, adminLogin. unfold_calls. unfold_control.
  service_cases; bracket.
Qed.

Lemma perform_lowers_isLoading (a : action) (w : World S) :
  isLoading w = false -> isLoading (perform a w) = false.
Proof.
  intros Hw. destruct a; cbn [perform].
  - now rewrite initializeAuth_keeps_isLoading.
  - apply login_brackets_loading.
  - apply register_brackets_loading.
  - exact Hw.
  - apply adminLogin_brackets_loading.
  - exact Hw.
Qed.

(** C9.  Every call of [login], [register] and [adminLogin], in every world,
    for every answer of the data service and of the browser, returns to its
    caller, writes [true] to [isLoading] as its first effect and [false] as
    its last, and writes [isLoading] at no other point: [isLoading] is
    [true] in every world the call goes through before its last effect,
    and [false] in the world it leaves.  Between two calls, from the first
    render on, [isLoading] is [false]. *)
Theorem isLoading_only_during_calls :
  (forall emailOrRoll password (w : World S),
     loading_bracket (login emailOrRoll password w))
  /\ (forall userData (w : World S), loading_bracket (register userData w))
  /\ (forall username password (w : World S),
        loading_bracket (adminLogin username password w))
  /\ (forall w : World S, between_calls w -> isLoading w = false).
Proof.
  repeat apply conj.
  - apply login_brackets_loading.
  - apply register_brackets_loading.
  - apply adminLogin_brackets_loading.
  - induction 1 as [storage s now | a w _ IH | storage s now w _ IH].
    + reflexivity.
    + now apply perform_lowers_isLoading.
    + exact IH.
Qed.

End Properties.

(** ** Register, then log in, on the mock store *)

Lemma find_absent {A : Type} (f : A -> bool) (l : list A) :
  existsb f l = false -> List.find f l = None.
Proof.
  induction l as [| x l IH]; cbn; [reflexivity |].
  destruct (f x); [discriminate | exact IH].
Qed.

Lemma find_appended {A : Type} (f : A -> bool) (l : list A) (x : A) :
  existsb f l = false -> f x = true -> List.find f (l ++ [x]) = Some x.
Proof.
  intros Hl Hx. induction l as [| y l IH]; cbn in *.
  - now rewrite Hx.
  - destruct (f y); [discriminate | auto].
Qed.

Section RegisterThenLogin.
Context {json : JSON} {casing : Casing} {quota : Quota}.

(** C3, as amended.  On the mock store, under any behaviour of
    [updateUser], let no record have the e-mail address or the roll number
    of the registration, and let the address end with
    [@raghuenggcollege.in].  Then [register] succeeds; and [login] with that
    address and any password succeeds next and yields a session user whose
    [roll_number] is the registered one, provided [updateUser] resolves for
    the new record and the browser takes the write of its mirror. *)
Theorem register_then_login
    (update : string -> string -> MockData.store
              -> MockData.store * outcome (Response.t User.t))
    (userData : NewUser.t) (password : string) (w : World MockData.store) :
  existsb (MockData.by_email (NewUser.email userData))
          (MockData.users (service w)) = false ->
  existsb (MockData.by_roll_number (NewUser.roll_number userData))
          (MockData.users (service w)) = false ->
  endsWith (NewUser.email userData) "@raghuenggcollege.in" = true ->
  let created := MockData.record_of userData (service w) in
  let registered :=
    register (svc := MockData.with_updateUser update) userData w in
  let logged_in :=
    login (svc := MockData.with_updateUser update)
          (NewUser.email userData) password (final registered) in
  value_of registered = Returns succeeded
  /\ (forall (s2 : MockData.store) (updated : Response.t User.t),
        update (User.id created) (clock w) (service (final registered))
          = (s2, Returns updated) ->
        accepts (localStorage w) "user"
                (JSON_stringify (mirror_of created)) = true ->
        value_of logged_in = Returns succeeded
        /\ option_map AuthUser.roll_number (user (final logged_in))
           = Some (Str (NewUser.roll_number userData))).
Proof.
  intros Hemail Hroll Hdomain created registered logged_in.
  assert (Hat : includes (NewUser.email userData) "@" = true)
    by exact (endsWith_includes_at _ _ Hdomain).
  assert (Hreg : value_of registered = Returns succeeded
                 /\ localStorage (final registered) = localStorage w
                 /\ clock (final registered) = clock w
                 /\ exists rs,
                      service (final registered) =
                        {| MockData.users :=
                             MockData.users (service w) ++ [created];
                           MockData.registrations := rs;
                           MockData.admins := MockData.admins (service w);
                           MockData.today := MockData.today (service w) |}).
  { subst registered logged_in.
    unfold register, reports_error. unfold_calls. unfold_control. cbn.
    unfold MockData.getUserByEmail, MockData.getUserByRollNumber,
      MockData.createUser. cbn.
    rewrite (find_absent _ _ Hemail). cbn.
    rewrite (find_absent _ _ Hroll). cbn.
    rewrite Hemail, Hroll. cbn.
    repeat apply conj; try reflexivity. eexists. reflexivity. }
  destruct Hreg as (Hok & Hstorage & Hclock & rs & Hservice).
  clearbody registered. split; [exact Hok |].
  intros s2 updated Hupd Hquota. subst logged_in.
  assert (Hfind :
            find_user (svc := MockData.with_updateUser update)
                      (NewUser.email userData) (service (final registered))
            = (service (final registered),
               Returns (MockData.found (Some created)))).
  { unfold find_user. rewrite Hat. cbn. unfold MockData.getUserByEmail.
    rewrite Hservice. cbn. rewrite find_appended; auto.
    unfold MockData.by_email. cbn. apply String.eqb_refl. }
  assert (Hdom :
            includes (NewUser.email userData) "@"
            && negb (endsWith (NewUser.email userData)
                              "@raghuenggcollege.in") = false)
    by now rewrite Hat, Hdomain.
  pose proof (login_known_user (svc := MockData.with_updateUser update)
                (NewUser.email userData) password (final registered)
                _ s2 _ created (Returns updated) Hdom Hfind eq_refl) as H.
  cbv zeta in H. rewrite Hclock, Hstorage, Hquota in H.
  destruct (H Hupd) as (-> & -> & _). cbn. auto.
Qed.

End RegisterThenLogin.

(* ================================================================== *)
(** * The properties at work on the mock store *)
(* ================================================================== *)

(** C2 fails as stated, twice.  With a well-formed [user] record next to a
    damaged [admin] record, [initializeAuth] removes the [user] record as
    well: what it leaves is not the storage without the damaged key.  And an
    empty [user] record, which [JSON.parse] rejects, is not removed at
    all. *)
Lemma initializeAuth_removes_more_or_less :
  (let w := mount damaged_admin_page alice_store noon in
   localStorage w !! "admin" = Some "{oops"
   /\ JSON_parse "{oops" = None
   /\ localStorage (final (initializeAuth w)) !! "user" = None
   /\ localStorage (final (initializeAuth w))
      <> delete "admin" (localStorage w))
  /\ (let w := mount blank_user_page alice_store noon in
      localStorage w !! "user" = Some ""
      /\ JSON_parse "" = None
      /\ localStorage (final (initializeAuth w)) !! "user" = Some ""
      /\ localStorage (final (initializeAuth w))
         <> delete "user" (localStorage w)).
Proof.
  repeat apply conj; try (vm_compute; reflexivity);
    intros H; apply (f_equal (fun m => m !! "user")) in H;
    vm_compute in H; discriminate.
Qed.

Lemma initializeAuth_discards_malformed_witness :
  (malformed (damaged_user_page !! "user")
   \/ malformed (damaged_user_page !! "admin"))
  /\ let r := initializeAuth (mount damaged_user_page alice_store noon) in
     value_of r = Returns tt
     /\ localStorage (final r)
        = delete "admin" (delete "user" damaged_user_page)
     /\ isInitialized (final r) = true
     /\ admin (final r) = Null
     /\ (malformed (damaged_user_page !! "user") -> user (final r) = None).
Proof.
  assert (H : malformed (damaged_user_page !! "user")
              \/ malformed (damaged_user_page !! "admin")).
  { left. exists "{oops". split; vm_compute; reflexivity. }
  split; [exact H |].
  exact (initializeAuth_discards_malformed
           (mount damaged_user_page alice_store noon) H).
Defined.

(** C3 fails as stated.  On a store without users the registration of
    [a@inst.edu] with roll number [R1] succeeds, and the [login] with that
    address that follows fails with the [InvalidDomain] message and
    establishes no session. *)
Lemma inst_edu_registers_but_cannot_login :
  existsb (MockData.by_email "a@inst.edu") (MockData.users empty_store)
    = false
  /\ existsb (MockData.by_roll_number "R1") (MockData.users empty_store)
     = false
  /\ value_of (register inst_edu empty_world) = Returns succeeded
  /\ value_of (login "a@inst.edu" "anyPassword"
                 (final (register inst_edu empty_world)))
     = Returns (failed InvalidDomain)
  /\ user (final (login "a@inst.edu" "anyPassword"
                    (final (register inst_edu empty_world))))
     = None.
Proof. repeat apply conj; vm_compute; reflexivity. Qed.

Lemma register_then_login_witness :
  let registered := register college empty_world in
  let logged_in :=
    login "a@raghuenggcollege.in" "anyPassword" (final registered) in
  value_of registered = Returns succeeded
  /\ value_of logged_in = Returns succeeded
  /\ option_map AuthUser.roll_number (user (final logged_in))
     = Some (Str "R1").
Proof.
  destruct (register_then_login MockData.updateUser college "anyPassword"
              empty_world eq_refl eq_refl eq_refl) as [Hregistered Hlogin].
  split; [exact Hregistered |].
  exact (Hlogin _ _ eq_refl eq_refl).
Defined.

Lemma login_rejects_foreign_domain_witness :
  let w := final (register inst_edu empty_world) in
  let r := login "a@inst.edu" "anyPassword" w in
  value_of r = Returns (failed InvalidDomain)
  /\ log r = [SetIsLoading true; SetIsLoading false]
  /\ requests (log r) = []
  /\ service (final r) = service w
  /\ user (final r) = user w
  /\ localStorage (final r) = localStorage w.
Proof.
  apply (login_rejects_foreign_domain "a@inst.edu" "anyPassword"
           (final (register inst_edu empty_world)));
    vm_compute; reflexivity.
Defined.

Lemma register_checks_email_first_witness :
  let r := register alice_again alice_world in
  value_of r = Returns (failed DuplicateEmail)
  /\ value_of r <> Returns (failed DuplicateRollNumber)
  /\ requests (log r) = [GetUserByEmail "alice@raghuenggcollege.in"].
Proof.
  apply (register_checks_email_first alice_again alice_world alice_store
           (MockData.found (Some alice)) alice);
    vm_compute; reflexivity.
Defined.

(** C6 fails as stated.  The identifiers [ß1] and [ẞ1] contain no [@] and
    differ only in the case of one letter, the sharp s: the lower-case form
    of both is [ß1].  [login] upper-cases the first to [SS1] and leaves the
    second, so the two look-ups differ. *)
Lemma sharp_s_roll_numbers_query_apart :
  includes "ß1" "@" = false
  /\ includes "ẞ1" "@" = false
  /\ toLowerCase "ẞ1" = toLowerCase "ß1"
  /\ requests (log (login "ß1" "pw" alice_world))
     = [GetUserByRollNumber "SS1"]
  /\ requests (log (login "ẞ1" "pw" alice_world))
     = [GetUserByRollNumber "ẞ1"]
  /\ requests (log (login "ß1" "pw" alice_world))
     <> requests (log (login "ẞ1" "pw" alice_world)).
Proof.
  repeat apply conj; try (vm_compute; reflexivity).
  vm_compute. discriminate.
Qed.

Lemma login_upper_cases_roll_number_witness :
  head (requests (log (login "abc123" "pw" alice_world)))
    = Some (GetUserByRollNumber "ABC123")
  /\ requests (log (login "abc123" "pw" alice_world))
     = requests (log (login "ABC123" "other" alice_world))
  /\ login "abc123" "pw" alice_world = login "aBc123" "other" alice_world.
Proof.
  destruct (login_upper_cases_roll_number "abc123" "pw" alice_world eq_refl)
    as (Hfirst & Hupper & Hcase).
  repeat apply conj.
  - exact Hfirst.
  - exact (proj2 (Hupper "ABC123" "other" eq_refl eq_refl)).
  - exact (proj1 (Hcase "aBc123" "other" eq_refl)).
Defined.

(** C7 fails as stated.  A fresh page over a stored [user] record has no
    user session, and neither has the page after [initializeAuth] on an
    empty record; in both [logout] removes the record, so it is not a
    no-op. *)
Lemma logout_removes_record_without_session :
  (let w := mount alice_page alice_store noon in
   user w = None
   /\ localStorage w !! "user" <> None
   /\ localStorage (final (logout w)) !! "user" = None
   /\ final (logout w) <> w)
  /\ (let w := final (initializeAuth
                       (mount blank_user_page alice_store noon)) in
      user w = None
      /\ localStorage w !! "user" = Some ""
      /\ localStorage (final (logout w)) !! "user" = None
      /\ final (logout w) <> w).
Proof.
  repeat apply conj; try (vm_compute; reflexivity);
    try (vm_compute; discriminate);
    intros H;
    apply (f_equal (fun w : World MockData.store =>
                      localStorage w !! "user")) in H;
    vm_compute in H; discriminate.
Qed.

Lemma logout_clears_user_session_witness :
  let w := final (login "abc123" "pw" alice_world) in
  user w = Some (authUser_of alice)
  /\ user (final (logout w)) = None
  /\ localStorage (final (logout w)) !! "user" = None
  /\ final (logout (final (logout w))) = final (logout w)
  /\ final (logout empty_world) = empty_world
  /\ user (final (initializeAuth (reload (final (logout w))))) = None.
Proof.
  intros w.
  destruct (logout_clears_user_session w)
    as (_ & Hu & Hs & _ & _ & _ & Hi & _ & _ & Hr).
  destruct (logout_clears_user_session empty_world)
    as (_ & _ & _ & _ & _ & _ & _ & Hnoop & _).
  repeat apply conj;
    [reflexivity | exact Hu | | exact Hi | exact (Hnoop eq_refl eq_refl)
    | exact Hr].
  rewrite Hs. apply lookup_delete_eq.
Defined.

(** C8 fails as stated.  Over a data service whose [updateUser] rejects,
    the look-up finds [alice], and [login] fails with the [LoginFailed]
    message, sets no session and stores nothing. *)
Lemma login_blocked_by_rejected_update :
  find_user (svc := RejectingUpdates.service) "ABC123" alice_store
    = (alice_store, Returns (MockData.found (Some alice)))
  /\ value_of (login (svc := RejectingUpdates.service) "ABC123" "pw"
                 alice_world)
     = Returns (failed LoginFailed)
  /\ user (final (login (svc := RejectingUpdates.service) "ABC123" "pw"
                    alice_world))
     = None
  /\ localStorage (final (login (svc := RejectingUpdates.service) "ABC123"
                            "pw" alice_world)) !! "user"
     = None.
Proof. repeat apply conj; vm_compute; reflexivity. Qed.

Lemma login_survives_update_response_witness :
  let r := login "abc123" "pw" alice_world in
  value_of r = Returns succeeded
  /\ user (final r) = Some (authUser_of alice)
  /\ localStorage (final r)
     = <["user" := JSON_stringify (mirror_of alice)]> ∅.
Proof.
  exact (login_survives_update_response "abc123" "pw" alice_world
           alice_store
           (fst (MockData.updateUser "user-1" noon alice_store))
           (MockData.found (Some alice)) alice
           (Returns (MockData.found
                       (Some (MockData.touch "user-1" noon alice))))
           eq_refl eq_refl eq_refl eq_refl).
Defined.

Lemma login_ignores_password_witness :
  value_of (login "abc123" "correct horse" alice_world) = Returns succeeded
  /\ value_of (login "abc123" "" alice_world) = Returns succeeded
  /\ user (final (login "abc123" "" alice_world))
     = Some (authUser_of alice).
Proof.
  destruct (login_ignores_password "abc123" alice_world) as [_ Hany].
  pose proof (fun password =>
                proj2 (Hany alice_store (MockData.found (Some alice)) alice
                            eq_refl eq_refl eq_refl password)
                      _ _ eq_refl eq_refl) as H.
  repeat apply conj; apply H.
Defined.

Lemma isLoading_only_during_calls_witness :
  loading_bracket (login "abc123" "pw" alice_world)
  /\ isLoading (perform (Login "abc123" "pw") alice_world) = false.
Proof.
  destruct (isLoading_only_during_calls (S := MockData.store))
    as (Hlogin & _ & _ & Hbetween).
  split; [apply Hlogin |].
  apply Hbetween. apply after_call. apply at_mount.
Defined.

(* ================================================================== *)
(** * Further properties of the provider *)
(* ================================================================== *)

Section Further.
Context {S : Type} {svc : Service.t S} {json : JSON} {casing : Casing}
        {quota : Quota}.

Lemma restored_user_pure (userData : value) :
  exists o, forall w : World S,
    restored_user userData w
    = {| value_of := o; final := w; log := []; states := [] |}.
Proof.
  unfold restored_user, or_else, bind.
  destruct userData; cbn; eauto.
  repeat match goal with |- context [truthy ?v] => destruct (truthy v); cbn end;
    eauto.
Qed.

Lemma restored_user_object (userData : value) :
  userData <> Null -> userData <> Undefined ->
  exists u, forall w : World S,
    restored_user userData w
    = {| value_of := Returns u; final := w; log := []; states := [] |}.
Proof.
  intros Hn Hu. unfold restored_user, or_else, bind.
  destruct userData; try congruence; cbn; eauto.
  repeat match goal with |- context [truthy ?v] => destruct (truthy v); cbn end;
    eauto.
Qed.

Lemma restored_user_throws (userData : value) (w : World S) (e : exn) :
  restored_user userData w
    = {| value_of := Throws e; final := w; log := []; states := [] |} ->
  userData = Null \/ userData = Undefined.
Proof.
  intros H. destruct userData; auto; exfalso.
  all: match type of H with
       | restored_user ?v _ = _ =>
           destruct (restored_user_object v) as [u Hu];
             [discriminate | discriminate | rewrite (Hu w) in H; discriminate]
       end.
Qed.

Lemma restored_user_mirror (u : User.t) (w : World S) :
  restored_user (mirror_of u) w =
    {| value_of :=
         Returns
           {| AuthUser.id := or_literal (User.id u) "user-1";
              AuthUser.email := Str (User.email u);
              AuthUser.full_name := or_undefined (User.full_name u);
              AuthUser.roll_number := or_undefined (User.roll_number u);
              AuthUser.branch := Str (User.branch u);
              AuthUser.year := Str (User.year u);
              AuthUser.phone_number := or_undefined (User.phone_number u);
              AuthUser.status := or_literal (User.status u) "active" |};
       final := w; log := []; states := [] |}.
Proof.
  unfold restored_user, or_else, bind, or_literal, or_undefined. cbn.
  destruct (String.eqb (User.id u) ""); cbn;
    destruct (String.eqb (User.full_name u) ""); cbn;
    destruct (String.eqb (User.roll_number u) ""); cbn;
    destruct (String.eqb (User.phone_number u) ""); cbn;
    destruct (String.eqb (User.status u) ""); reflexivity.
Qed.

Lemma initializeAuth_user_skipped (w : World S) :
  present (localStorage w !! "user") = None ->
  exists a st l tr,
    initializeAuth w =
      {| value_of := Returns tt;
         final :=
           {| user := user w; admin := a; isLoading := isLoading w;
              isInitialized := true; localStorage := st;
              service := service w; clock := clock w |};
         log := l; states := tr |}
    /\ requests l = []
    /\ admin_stage w a st.
Proof.
  intros Huser. unfold initializeAuth, admin_stage. unfold_control. cbn.
  rewrite Huser. cbn.
  destruct (present (localStorage w !! "admin")) as [text |]; cbn.
  - unfold JSON_parse_or_throw.
    destruct (JSON_parse text); cbn; do 4 eexists; repeat apply conj;
      reflexivity.
  - do 4 eexists; repeat apply conj; reflexivity.
Qed.

Lemma initializeAuth_user_restored (w : World S) (text : string)
    (userData : value) (u : AuthUser.t) :
  present (localStorage w !! "user") = Some text ->
  JSON_parse text = Some userData ->
  restored_user userData w
    = {| value_of := Returns u; final := w; log := []; states := [] |} ->
  exists a st l tr,
    initializeAuth w =
      {| value_of := Returns tt;
         final :=
           {| user := Some u; admin := a; isLoading := isLoading w;
              isInitialized := true; localStorage := st;
              service := service w; clock := clock w |};
         log := l; states := tr |}
    /\ requests l = []
    /\ admin_stage w a st.
Proof.
  intros Huser Hparse Hrestored.
  unfold initializeAuth, admin_stage. unfold_control. cbn.
  rewrite Huser. cbn. unfold JSON_parse_or_throw at 1. rewrite Hparse. cbn.
  rewrite Hrestored. cbn.
  destruct (present (localStorage w !! "admin")) as [text' |]; cbn.
  - unfold JSON_parse_or_throw.
    destruct (JSON_parse text'); cbn; do 4 eexists; repeat apply conj;
      reflexivity.
  - do 4 eexists; repeat apply conj; reflexivity.
Qed.

Lemma initializeAuth_user_failed (w : World S) (text : string) :
  present (localStorage w !! "user") = Some text ->
  match JSON_parse text with
  | Some userData => userData = Null \/ userData = Undefined
  | None => True
  end ->
  exists l tr,
    initializeAuth w =
      {| value_of := Returns tt;
         final :=
           {| user := user w; admin := admin w; isLoading := isLoading w;
              isInitialized := true;
              localStorage := delete "admin" (delete "user" (localStorage w));
              service := service w; clock := clock w |};
         log := l; states := tr |}
    /\ requests l = [].
Proof.
  intros Huser Hparse.
  unfold initializeAuth. unfold_control. cbn.
  rewrite Huser. cbn. unfold JSON_parse_or_throw at 1.
  destruct (JSON_parse text) as [userData |]; cbn.
  - destruct Hparse as [-> | ->]; cbn; do 2 eexists; split; reflexivity.
  - do 2 eexists; split; reflexivity.
Qed.


Lemma removed_user (m : gmap string string) :
  delete "admin" (delete "user" m) !! "user" = None.
Proof. rewrite lookup_delete_ne by done. apply lookup_delete_eq. Qed.

Lemma removed_admin (m : gmap string string) :
  delete "admin" (delete "user" m) !! "admin" = None.
Proof. apply lookup_delete_eq. Qed.

(** Every run of [initializeAuth] has this shape. *)
Lemma initializeAuth_shape (w : World S) :
  exists u a st l tr,
    initializeAuth w =
      {| value_of := Returns tt;
         final :=
           {| user := u; admin := a; isLoading := isLoading w;
              isInitialized := true; localStorage := st;
              service := service w; clock := clock w |};
         log := l; states := tr |}
    /\ requests l = []
    /\ (st = localStorage w
        \/ st = delete "admin" (delete "user" (localStorage w)))
    /\ (present (localStorage w !! "admin") = None -> a = admin w)
    /\ (present (localStorage w !! "user") = None -> u = user w).
Proof.
  assert (Hstage : forall a st,
            admin_stage w a st ->
            (st = localStorage w
             \/ st = delete "admin" (delete "user" (localStorage w)))
            /\ (present (localStorage w !! "admin") = None -> a = admin w)).
  { intros a st. unfold admin_stage.
    destruct (present (localStorage w !! "admin")) as [t |];
      [destruct (JSON_parse t) |]; intros [-> ->]; split; auto; discriminate. }
  destruct (present (localStorage w !! "user")) as [text |] eqn:Huser.
  - destruct (JSON_parse text) as [userData |] eqn:Hparse.
    + destruct (restored_user_pure userData) as [[u | e] Hrestored].
      * destruct (initializeAuth_user_restored w text userData u Huser Hparse
                    (Hrestored w)) as (a & st & l & tr & -> & Hl & Hst).
        destruct (Hstage a st Hst) as [? ?].
        exists (Some u), a, st, l, tr. repeat apply conj; auto. discriminate.
      * destruct (initializeAuth_user_failed w text Huser)
          as (l & tr & -> & Hl).
        { rewrite Hparse. exact (restored_user_throws _ _ _ (Hrestored w)). }
        do 5 eexists. split; [reflexivity |]. repeat apply conj; auto.
    + destruct (initializeAuth_user_failed w text Huser) as (l & tr & -> & Hl).
      { now rewrite Hparse. }
      do 5 eexists. split; [reflexivity |]. repeat apply conj; auto.
  - destruct (initializeAuth_user_skipped w Huser)
      as (a & st & l & tr & -> & Hl & Hst).
    destruct (Hstage a st Hst) as [? ?].
    exists (user w), a, st, l, tr. repeat apply conj; auto.
Qed.

(** X1.  In every world [initializeAuth] returns without throwing and sets
    [isInitialized].  It sends no request, leaves the data service and
    [isLoading] alone, and leaves [localStorage] either untouched or without
    both session keys. *)
Theorem initializeAuth_always_completes (w : World S) :
  let r := initializeAuth w in
  value_of r = Returns tt
  /\ isInitialized (final r) = true
  /\ requests (log r) = []
  /\ service (final r) = service w
  /\ isLoading (final r) = isLoading w
  /\ (localStorage (final r) = localStorage w
      \/ localStorage (final r)
         = delete "admin" (delete "user" (localStorage w))).
Proof.
  destruct (initializeAuth_shape w)
    as (u & a & st & l & tr & Hr & Hl & Hst & _).
  cbv zeta. rewrite Hr. cbn. auto 10.
Qed.

(** X2.  When neither session key holds non-empty content,
    [initializeAuth] changes nothing but [isInitialized]: both sessions and
    [localStorage] stay as they were. *)
Theorem initializeAuth_without_records (w : World S) :
  present (localStorage w !! "user") = None ->
  present (localStorage w !! "admin") = None ->
  let r := initializeAuth w in
  user (final r) = user w
  /\ admin (final r) = admin w
  /\ localStorage (final r) = localStorage w
  /\ isInitialized (final r) = true.
Proof.
  intros Huser Hadmin.
  destruct (initializeAuth_user_skipped w Huser)
    as (a & st & l & tr & Hr & _ & Hst).
  unfold admin_stage in Hst. rewrite Hadmin in Hst. destruct Hst as [-> ->].
  cbv zeta. rewrite Hr. cbn. auto.
Qed.

(** X3.  A [user] record that parses to [null] is treated like a damaged
    one: reading its [id] throws, the handler removes both session keys, and
    no session is restored. *)
Theorem initializeAuth_null_user_record (w : World S) (text : string) :
  present (localStorage w !! "user") = Some text ->
  JSON_parse text = Some Null ->
  let r := initializeAuth w in
  value_of r = Returns tt
  /\ user (final r) = user w
  /\ admin (final r) = admin w
  /\ localStorage (final r) = delete "admin" (delete "user" (localStorage w))
  /\ isInitialized (final r) = true.
Proof.
  intros Huser Hparse.
  destruct (initializeAuth_user_failed w text Huser) as (l & tr & Hr & _).
  { rewrite Hparse. now left. }
  cbv zeta. rewrite Hr. cbn. auto.
Qed.


(** X4.  Running [initializeAuth] a second time changes nothing: the world
    after two runs is the world after one. *)
Theorem initializeAuth_twice (w : World S) :
  final (initializeAuth (final (initializeAuth w))) = final (initializeAuth w).
Proof.
  assert (Hquiet : forall w1 : World S,
            isInitialized w1 = true ->
            localStorage w1 !! "user" = None ->
            localStorage w1 !! "admin" = None ->
            final (initializeAuth w1) = w1).
  { intros w1 Hinit Hu Ha.
    destruct (initializeAuth_user_skipped w1)
      as (a & st & l & tr & -> & _ & Hst).
    { now rewrite Hu. }
    unfold admin_stage in Hst. rewrite Ha in Hst. cbn in Hst.
    destruct Hst as [-> ->]. destruct w1; cbn in *. now subst. }
  destruct (present (localStorage w !! "user")) as [text |] eqn:Huser.
  - destruct (JSON_parse text) as [userData |] eqn:Hparse.
    + destruct (restored_user_pure userData) as [[u | e] Hrestored].
      * destruct (initializeAuth_user_restored w text userData u Huser Hparse
                    (Hrestored w)) as (a & st & l & tr & -> & _ & Hst).
        cbn [final]. unfold admin_stage in Hst.
        destruct (present (localStorage w !! "admin")) as [t |] eqn:Hp;
          [destruct (JSON_parse t) as [v |] eqn:Hv |];
          destruct Hst as [-> ->].
        -- edestruct (initializeAuth_user_restored
                        {| user := Some u; admin := v;
                           isLoading := isLoading w; isInitialized := true;
                           localStorage := localStorage w;
                           service := service w; clock := clock w |}
                        text userData u Huser Hparse (Hrestored _))
             as (a' & st' & l' & tr' & -> & _ & Hst').
           unfold admin_stage in Hst'. cbn in Hst'. rewrite Hp, Hv in Hst'.
           now destruct Hst' as [-> ->].
        -- apply Hquiet; cbn; auto using removed_user, removed_admin.
        -- edestruct (initializeAuth_user_restored
                        {| user := Some u; admin := admin w;
                           isLoading := isLoading w; isInitialized := true;
                           localStorage := localStorage w;
                           service := service w; clock := clock w |}
                        text userData u Huser Hparse (Hrestored _))
             as (a' & st' & l' & tr' & -> & _ & Hst').
           unfold admin_stage in Hst'. cbn in Hst'. rewrite Hp in Hst'.
           now destruct Hst' as [-> ->].
      * destruct (initializeAuth_user_failed w text Huser)
          as (l0 & tr0 & -> & _).
        { rewrite Hparse. exact (restored_user_throws _ _ _ (Hrestored w)). }
        cbn [final].
        apply Hquiet; cbn; auto using removed_user, removed_admin.
    + destruct (initializeAuth_user_failed w text Huser) as (l0 & tr0 & -> & _).
      { now rewrite Hparse. }
      cbn [final]. apply Hquiet; cbn; auto using removed_user, removed_admin.
  - destruct (initializeAuth_user_skipped w Huser)
      as (a & st & l & tr & -> & _ & Hst).
    cbn [final]. unfold admin_stage in Hst.
    destruct (present (localStorage w !! "admin")) as [t |] eqn:Hp;
      [destruct (JSON_parse t) as [v |] eqn:Hv |];
      destruct Hst as [-> ->].
    + edestruct (initializeAuth_user_skipped
                   {| user := user w; admin := v;
                      isLoading := isLoading w; isInitialized := true;
                      localStorage := localStorage w;
                      service := service w; clock := clock w |} Huser)
        as (a' & st' & l' & tr' & -> & _ & Hst').
      unfold admin_stage in Hst'. cbn in Hst'. rewrite Hp, Hv in Hst'.
      now destruct Hst' as [-> ->].
    + destruct (present (delete "admin" (delete "user" (localStorage w))
                         !! "user")) eqn:Hgone.
      { rewrite removed_user in Hgone. discriminate. }
      edestruct (initializeAuth_user_skipped
                   {| user := user w; admin := admin w;
                      isLoading := isLoading w; isInitialized := true;
                      localStorage :=
                        delete "admin" (delete "user" (localStorage w));
                      service := service w; clock := clock w |} Hgone)
        as (a' & st' & l' & tr' & -> & _ & Hst').
      unfold admin_stage in Hst'. cbn in Hst'.
      rewrite removed_admin in Hst'. cbn in Hst'.
      now destruct Hst' as [-> ->].
    + edestruct (initializeAuth_user_skipped
                   {| user := user w; admin := admin w;
                      isLoading := isLoading w; isInitialized := true;
                      localStorage := localStorage w;
                      service := service w; clock := clock w |} Huser)
        as (a' & st' & l' & tr' & -> & _ & Hst').
      unfold admin_stage in Hst'. cbn in Hst'. rewrite Hp in Hst'.
      now destruct Hst' as [-> ->].
Qed.


(** X7.  After a successful [login] and a reload of the page,
    [initializeAuth] restores the session from the stored mirror, provided
    [JSON.parse] reads back what [JSON.stringify] wrote.  The restored
    session is the one [login] set when the id, name, roll number, phone
    number and status of the record are non-empty; an empty id comes back as
    [user-1], an empty status as [active], and an empty name, roll number or
    phone number as [undefined]. *)
Theorem login_then_reload (emailOrRoll password : string) (w : World S)
    (s1 s2 : S) (found updated : Response.t User.t) (userData : User.t) :
  includes emailOrRoll "@"
    && negb (endsWith emailOrRoll "@raghuenggcollege.in") = false ->
  find_user emailOrRoll (service w) = (s1, Returns found) ->
  Response.data found = Some userData ->
  Service.updateUser (User.id userData) (clock w) s1
    = (s2, Returns updated) ->
  value_of (login emailOrRoll password w) = Returns succeeded ->
  JSON_stringify (mirror_of userData) <> "" ->
  JSON_parse (JSON_stringify (mirror_of userData))
    = Some (mirror_of userData) ->
  let restored :=
    user (final (initializeAuth
                   (reload (final (login emailOrRoll password w))))) in
  restored =
    Some {| AuthUser.id := or_literal (User.id userData) "user-1";
            AuthUser.email := Str (User.email userData);
            AuthUser.full_name := or_undefined (User.full_name userData);
            AuthUser.roll_number := or_undefined (User.roll_number userData);
            AuthUser.branch := Str (User.branch userData);
            AuthUser.year := Str (User.year userData);
            AuthUser.phone_number :=
              or_undefined (User.phone_number userData);
            AuthUser.status := or_literal (User.status userData) "active" |}
  /\ (filled userData = true -> restored = Some (authUser_of userData)).
Proof.
  intros Hdom Hfind Hdata Hupd Hsuccess Hnonempty Hround restored.
  assert (Hrestored : restored =
    Some {| AuthUser.id := or_literal (User.id userData) "user-1";
            AuthUser.email := Str (User.email userData);
            AuthUser.full_name := or_undefined (User.full_name userData);
            AuthUser.roll_number := or_undefined (User.roll_number userData);
            AuthUser.branch := Str (User.branch userData);
            AuthUser.year := Str (User.year userData);
            AuthUser.phone_number :=
              or_undefined (User.phone_number userData);
            AuthUser.status := or_literal (User.status userData) "active" |}).
  { subst restored.
    pose proof (login_known_user _ password _ _ _ _ _ _
                  Hdom Hfind Hdata Hupd) as Hlogin.
    cbv zeta in Hlogin.
    destruct (accepts _ _ _);
      [| destruct Hlogin as (Hfailed & _);
         rewrite Hfailed in Hsuccess; discriminate].
    destruct Hlogin as (_ & -> & _).
    unfold reload. cbn [localStorage service clock].
    edestruct (initializeAuth_user_restored
                 (mount (<["user" := JSON_stringify (mirror_of userData)]>
                           (localStorage w)) s2 (clock w)))
      as (a & st & l & tr & -> & _);
      [| exact Hround | apply restored_user_mirror | reflexivity].
    cbn. rewrite lookup_insert_eq. cbn.
    apply String.eqb_neq in Hnonempty. now rewrite Hnonempty. }
  split; [exact Hrestored |].
  intros Hfilled. rewrite Hrestored. unfold filled in Hfilled.
  repeat (apply andb_true_iff in Hfilled as [Hfilled ?]).
  unfold authUser_of, or_literal, or_undefined.
  repeat match goal with
         | H : negb (String.eqb ?x "") = true |- _ =>
             apply negb_true_iff in H; rewrite H
         end.
  reflexivity.
Qed.

(** X5.  [initializeAuth] also reads a record stored under the field names
    of the session user ([full_name], [roll_number], [phone_number]): every
    field comes back as stored, except that an empty id becomes [user-1] and
    an empty status [active]. *)
Theorem initializeAuth_reads_canonical_record (w : World S) (text : string)
    (userData : User.t) :
  present (localStorage w !! "user") = Some text ->
  JSON_parse text = Some (canonical_of userData) ->
  user (final (initializeAuth w)) =
    Some {| AuthUser.id := or_literal (User.id userData) "user-1";
            AuthUser.email := Str (User.email userData);
            AuthUser.full_name := Str (User.full_name userData);
            AuthUser.roll_number := Str (User.roll_number userData);
            AuthUser.branch := Str (User.branch userData);
            AuthUser.year := Str (User.year userData);
            AuthUser.phone_number := Str (User.phone_number userData);
            AuthUser.status := or_literal (User.status userData) "active" |}.
Proof.
  intros Huser Hparse.
  edestruct (initializeAuth_user_restored w text (canonical_of userData))
    as (a & st & l & tr & -> & _); [exact Huser | exact Hparse | | reflexivity].
  unfold restored_user, or_else, bind, or_literal. cbn.
  destruct (String.eqb (User.id userData) ""); cbn;
    destruct (String.eqb (User.status userData) ""); reflexivity.
Qed.

(** X6.  With a readable [user] record next to a damaged [admin] record,
    [initializeAuth] restores the user session in memory and then removes
    both records: the session is there, its record is not. *)
Theorem initializeAuth_restores_then_removes (w : World S) (text : string)
    (userData : value) :
  present (localStorage w !! "user") = Some text ->
  JSON_parse text = Some userData ->
  userData <> Null -> userData <> Undefined ->
  malformed (localStorage w !! "admin") ->
  let r := initializeAuth w in
  isAuthenticated (final r) = true
  /\ localStorage (final r) !! "user" = None
  /\ localStorage (final r) !! "admin" = None
  /\ admin (final r) = admin w.
Proof.
  intros Huser Hparse Hnull Hundef (text' & Hadmin & Hbad).
  destruct (restored_user_object userData Hnull Hundef) as [u Hu].
  destruct (initializeAuth_user_restored w text userData u Huser Hparse (Hu w))
    as (a & st & l & tr & Hr & _ & Hst).
  unfold admin_stage in Hst. rewrite Hadmin, Hbad in Hst.
  destruct Hst as [-> ->]. cbv zeta. rewrite Hr. cbn.
  auto using removed_user, removed_admin.
Qed.


(** X8.  When the look-up of [login] resolves without a record, [login]
    fails with the [NotFound] message; when it rejects, with the
    [LoginFailed] message.  Either way the look-up is the only request sent
    (no [updateUser]) and the user session and [localStorage] stay as they
    were. *)
Theorem login_without_record (emailOrRoll password : string) (w : World S)
    (s1 : S) (o : outcome (Response.t User.t)) :
  includes emailOrRoll "@"
    && negb (endsWith emailOrRoll "@raghuenggcollege.in") = false ->
  find_user emailOrRoll (service w) = (s1, o) ->
  match o with
  | Returns found => Response.data found = None
  | Throws _ => True
  end ->
  let r := login emailOrRoll password w in
  value_of r
    = Returns (failed match o with
                      | Returns _ => NotFound
                      | Throws _ => LoginFailed
                      end)
  /\ requests (log r) = [find_request emailOrRoll]
  /\ user (final r) = user w
  /\ localStorage (final r) = localStorage w.
Proof.
  intros Hdom Hfind Hmiss.
  unfold login, find_user, find_request in *. unfold_calls. unfold_control.
  cbn. rewrite Hdom.
  destruct (includes emailOrRoll "@"); cbn; rewrite Hfind;
    destruct o as [found | e]; cbn; rewrite ?Hmiss; cbn; auto.
Qed.

(** X10.  Whatever the data service answers, [login] leaves the admin
    session, the stored [admin] record and [isInitialized] as they were. *)
Theorem login_leaves_admin_session (emailOrRoll password : string)
    (w : World S) :
  let r := login emailOrRoll password w in
  admin (final r) = admin w
  /\ localStorage (final r) !! "admin" = localStorage w !! "admin"
  /\ isInitialized (final r) = isInitialized w.
Proof.
  unfold login. unfold_calls. unfold_control.
  service_cases; cbn; repeat apply conj; try reflexivity.
  all: now rewrite lookup_insert_ne.
Qed.

(** X11.  When [authenticateAdmin] resolves with a record, the one request
    [adminLogin] sent carries the user name and the password as given, and
    the record is made the admin session.  When the browser takes the
    write, the record is stored under [admin] and [adminLogin] succeeds;
    when [setItem] throws, [adminLogin] fails with the [AuthFailed] message
    and nothing is stored, the admin session being set already. *)
Theorem adminLogin_accepted (username password : string) (w : World S)
    (s1 : S) (result : Response.t AdminUser.t) (a : AdminUser.t) :
  Service.authenticateAdmin username password (service w)
    = (s1, Returns result) ->
  Response.data result = Some a ->
  let r := adminLogin username password w in
  requests (log r) = [AuthenticateAdmin username password]
  /\ admin (final r) = AdminUser.to_value a
  /\ isAdminAuthenticated (final r) = true
  /\ if accepts (localStorage w) "admin"
                (JSON_stringify (AdminUser.to_value a))
     then value_of r = Returns succeeded
          /\ localStorage (final r)
             = <["admin" := JSON_stringify (AdminUser.to_value a)]>
                 (localStorage w)
     else value_of r = Returns (failed AuthFailed)
          /\ localStorage (final r) = localStorage w.
Proof.
  intros Hauth Hdata. unfold adminLogin. unfold_calls. unfold_control. cbn.
  rewrite Hauth. cbn. rewrite Hdata. cbn.
  destruct (accepts _ _ _); cbn; auto.
Qed.

(** X12.  When [authenticateAdmin] resolves without a record, [adminLogin]
    fails with the [InvalidCredentials] message; when it rejects, with the
    [AuthFailed] message.  Either way the admin session and [localStorage]
    stay as they were. *)
Theorem adminLogin_refused (username password : string) (w : World S)
    (s1 : S) (o : outcome (Response.t AdminUser.t)) :
  Service.authenticateAdmin username password (service w) = (s1, o) ->
  match o with
  | Returns result => Response.data result = None
  | Throws _ => True
  end ->
  let r := adminLogin username password w in
  value_of r
    = Returns (failed match o with
                      | Returns _ => InvalidCredentials
                      | Throws _ => AuthFailed
                      end)
  /\ admin (final r) = admin w
  /\ localStorage (final r) = localStorage w.
Proof.
  intros Hauth Hmiss. unfold adminLogin. unfold_calls. unfold_control. cbn.
  rewrite Hauth. destruct o as [result | e]; cbn; rewrite ?Hmiss; cbn; auto.
Qed.

(** X13.  Whatever the data service answers, [adminLogin] leaves the user
    session, the stored [user] record and [isInitialized] as they were. *)
Theorem adminLogin_leaves_user_session (username password : string)
    (w : World S) :
  let r := adminLogin username password w in
  user (final r) = user w
  /\ localStorage (final r) !! "user" = localStorage w !! "user"
  /\ isInitialized (final r) = isInitialized w.
Proof.
  unfold adminLogin. unfold_calls. unfold_control.
  service_cases; cbn; repeat apply conj; try reflexivity.
  all: now rewrite lookup_insert_ne.
Qed.

(** X14.  [adminLogout] returns, leaves no admin session, removes the
    [admin] record, sends no request and leaves the user session and its
    record alone.  A second [adminLogout] changes nothing, and
    [initializeAuth] after a reload restores no admin session. *)
Theorem adminLogout_clears_admin_session (w : World S) :
  let r := adminLogout w in
  value_of r = Returns tt
  /\ admin (final r) = Null
  /\ isAdminAuthenticated (final r) = false
  /\ localStorage (final r) = delete "admin" (localStorage w)
  /\ requests (log r) = []
  /\ service (final r) = service w
  /\ user (final r) = user w
  /\ localStorage (final r) !! "user" = localStorage w !! "user"
  /\ final (adminLogout (final r)) = final r
  /\ admin (final (initializeAuth (reload (final r)))) = Null.
Proof.
  unfold adminLogout. unfold_control. cbn.
  repeat apply conj; try reflexivity.
  - now rewrite lookup_delete_ne.
  - unfold with_localStorage. cbn. now rewrite delete_delete_eq.
  - match goal with
    | |- admin (final (initializeAuth ?w1)) = _ =>
        destruct (initializeAuth_shape w1)
          as (u & a & st & l & tr & -> & _ & _ & Ha & _)
    end.
    cbn. apply Ha. cbn. now rewrite lookup_delete_eq.
Qed.

(** X15.  After a successful [adminLogin] and a reload of the page,
    [initializeAuth] restores the same admin session, provided [JSON.parse]
    reads back what [JSON.stringify] wrote and the [user] record, if any, is
    readable. *)
Theorem adminLogin_then_reload (username password : string) (w : World S)
    (s1 : S) (result : Response.t AdminUser.t) (a : AdminUser.t) :
  Service.authenticateAdmin username password (service w)
    = (s1, Returns result) ->
  Response.data result = Some a ->
  value_of (adminLogin username password w) = Returns succeeded ->
  JSON_stringify (AdminUser.to_value a) <> "" ->
  JSON_parse (JSON_stringify (AdminUser.to_value a))
    = Some (AdminUser.to_value a) ->
  restorable (localStorage w !! "user") ->
  admin (final (initializeAuth
                  (reload (final (adminLogin username password w)))))
    = AdminUser.to_value a.
Proof.
  intros Hauth Hdata Hsuccess Hnonempty Hround Huser.
  assert (Hlogin : final (adminLogin username password w) =
            {| user := user w; admin := AdminUser.to_value a;
               isLoading := false; isInitialized := isInitialized w;
               localStorage :=
                 <["admin" := JSON_stringify (AdminUser.to_value a)]>
                   (localStorage w);
               service := s1; clock := clock w |}).
  { revert Hsuccess. unfold adminLogin. unfold_calls. unfold_control. cbn.
    rewrite Hauth. cbn. rewrite Hdata. cbn.
    destruct (accepts _ _ _); cbn; [reflexivity | discriminate]. }
  rewrite Hlogin. unfold reload. cbn [localStorage service clock].
  set (w1 := mount _ s1 (clock w)).
  assert (Hsame : localStorage w1 !! "user" = localStorage w !! "user")
    by (subst w1; cbn; now rewrite lookup_insert_ne).
  assert (Hstage : forall v st, admin_stage w1 v st ->
                                v = AdminUser.to_value a).
  { intros v st. unfold admin_stage. subst w1. cbn.
    rewrite lookup_insert_eq. cbn.
    apply String.eqb_neq in Hnonempty. rewrite Hnonempty, Hround.
    now intros [-> _]. }
  unfold restorable in Huser. rewrite <- Hsame in Huser.
  destruct (present (localStorage w1 !! "user")) as [text |] eqn:Hp.
  - destruct Huser as (v & Hv & Hn & Hu).
    destruct (restored_user_object v Hn Hu) as [u Hrestored].
    destruct (initializeAuth_user_restored w1 text v u Hp Hv (Hrestored w1))
      as (a' & st & l & tr & -> & _ & Hst).
    cbn. eauto.
  - destruct (initializeAuth_user_skipped w1 Hp)
      as (a' & st & l & tr & -> & _ & Hst).
    cbn. eauto.
Qed.

(** X16.  When both look-ups of [register] find nothing and [createUser]
    resolves with an error, [register] fails with the [CreateFailed] message
    and sends no [createRegistration]. *)
Theorem register_create_failed (userData : NewUser.t) (w : World S)
    (s1 s2 s3 : S) (byEmail byRoll created : Response.t User.t) :
  Service.getUserByEmail (NewUser.email userData) (service w)
    = (s1, Returns byEmail) ->
  Response.data byEmail = None ->
  Service.getUserByRollNumber (NewUser.roll_number userData) s1
    = (s2, Returns byRoll) ->
  Response.data byRoll = None ->
  Service.createUser userData s2 = (s3, Returns created) ->
  reports_error created = true ->
  let r := register userData w in
  value_of r = Returns (failed CreateFailed)
  /\ requests (log r)
     = [GetUserByEmail (NewUser.email userData);
        GetUserByRollNumber (NewUser.roll_number userData);
        CreateUser userData].
Proof.
  intros He Hde Hr Hdr Hc Hbad.
  unfold register. unfold_calls. unfold_control. cbn.
  rewrite He. cbn. rewrite Hde. cbn. rewrite Hr. cbn. rewrite Hdr. cbn.
  rewrite Hc. cbn. rewrite Hbad. cbn. auto.
Qed.

(** X17.  When [createUser] resolves with neither an error nor a record,
    reading the id of the missing record throws: [register] fails with the
    [RegistrationFailed] message and sends no [createRegistration]. *)
Theorem register_without_created_record (userData : NewUser.t) (w : World S)
    (s1 s2 s3 : S) (byEmail byRoll created : Response.t User.t) :
  Service.getUserByEmail (NewUser.email userData) (service w)
    = (s1, Returns byEmail) ->
  Response.data byEmail = None ->
  Service.getUserByRollNumber (NewUser.roll_number userData) s1
    = (s2, Returns byRoll) ->
  Response.data byRoll = None ->
  Service.createUser userData s2 = (s3, Returns created) ->
  reports_error created = false ->
  Response.data created = None ->
  let r := register userData w in
  value_of r = Returns (failed RegistrationFailed)
  /\ requests (log r)
     = [GetUserByEmail (NewUser.email userData);
        GetUserByRollNumber (NewUser.roll_number userData);
        CreateUser userData].
Proof.
  intros He Hde Hr Hdr Hc Hok Hnone.
  unfold register. unfold_calls. unfold_control. cbn.
  rewrite He. cbn. rewrite Hde. cbn. rewrite Hr. cbn. rewrite Hdr. cbn.
  rewrite Hc. cbn. rewrite Hok. cbn. rewrite Hnone. cbn. auto.
Qed.

(** X18.  When [createUser] resolves with a record, [register] sends one
    [createRegistration] for the id of that record, dated with the clock,
    with status [active] and submission status [none].  [register] succeeds
    whatever that call resolves to, and fails with the [RegistrationFailed]
    message when it rejects, the user having been created already. *)
Theorem register_files_registration (userData : NewUser.t) (w : World S)
    (s1 s2 s3 s4 : S) (byEmail byRoll created : Response.t User.t)
    (u : User.t) (o : outcome (Response.t Registration.t)) :
  Service.getUserByEmail (NewUser.email userData) (service w)
    = (s1, Returns byEmail) ->
  Response.data byEmail = None ->
  Service.getUserByRollNumber (NewUser.roll_number userData) s1
    = (s2, Returns byRoll) ->
  Response.data byRoll = None ->
  Service.createUser userData s2 = (s3, Returns created) ->
  reports_error created = false ->
  Response.data created = Some u ->
  Service.createRegistration
    {| Registration.user_id := User.id u;
       Registration.registration_date := clock w;
       Registration.status := "active";
       Registration.submission_status := "none" |} s3 = (s4, o) ->
  let r := register userData w in
  value_of r
    = Returns match o with
              | Returns _ => succeeded
              | Throws _ => failed RegistrationFailed
              end
  /\ requests (log r)
     = [GetUserByEmail (NewUser.email userData);
        GetUserByRollNumber (NewUser.roll_number userData);
        CreateUser userData;
        CreateRegistration
          {| Registration.user_id := User.id u;
             Registration.registration_date := clock w;
             Registration.status := "active";
             Registration.submission_status := "none" |}]
  /\ service (final r) = s4.
Proof.
  intros He Hde Hr Hdr Hc Hok Hdc Hreg.
  unfold register. unfold_calls. unfold_control. cbn.
  rewrite He. cbn. rewrite Hde. cbn. rewrite Hr. cbn. rewrite Hdr. cbn.
  rewrite Hc. cbn. rewrite Hok. cbn. rewrite Hdc. cbn. rewrite Hreg.
  destruct o; cbn; auto.
Qed.




(** X20.  [initializeAuth] sets [isInitialized]; no other operation ever
    changes it. *)
Theorem isInitialized_set_once (a : action) (w : World S) :
  isInitialized (perform a w)
  = match a with
    | InitializeAuth => true
    | _ => isInitialized w
    end.
Proof.
  destruct a; cbn [perform].
  - destruct (initializeAuth_shape w) as (u & a & st & l & tr & -> & _).
    reflexivity.
  - unfold login. unfold_calls. unfold_control. service_cases; reflexivity.
  - unfold register, reports_error. unfold_calls. unfold_control.
    service_cases; reflexivity.
  - reflexivity.
  - unfold adminLogin. unfold_calls. unfold_control.
    service_cases; reflexivity.
  - reflexivity.
Qed.

End Further.

(** ** The further properties at work on the mock store *)

Lemma initializeAuth_without_records_witness :
  let r := initializeAuth empty_world in
  user (final r) = None
  /\ admin (final r) = Null
  /\ localStorage (final r) = ∅
  /\ isInitialized (final r) = true.
Proof.
  apply (initializeAuth_without_records empty_world); reflexivity.
Defined.

Lemma initializeAuth_null_user_record_witness :
  let w := mount null_user_page alice_store noon in
  let r := initializeAuth (json := LiteralJSON.codec) w in
  value_of r = Returns tt
  /\ user (final r) = None
  /\ admin (final r) = Null
  /\ localStorage (final r) = delete "admin" (delete "user" null_user_page)
  /\ isInitialized (final r) = true.
Proof.
  apply (initializeAuth_null_user_record (json := LiteralJSON.codec)
           (mount null_user_page alice_store noon) "null");
    vm_compute; reflexivity.
Defined.

Lemma initializeAuth_reads_canonical_record_witness :
  user (final (initializeAuth (mount canonical_page bob_store noon)))
  = Some {| AuthUser.id := Str "user-2";
            AuthUser.email := Str "bob@raghuenggcollege.in";
            AuthUser.full_name := Str "Bob";
            AuthUser.roll_number := Str "XYZ789";
            AuthUser.branch := Str "ECE";
            AuthUser.year := Str "1";
            AuthUser.phone_number := Str "";
            AuthUser.status := Str "active" |}.
Proof.
  apply (initializeAuth_reads_canonical_record
           (mount canonical_page bob_store noon)
           (FlatJSON.stringify (canonical_of bob)) bob);
    vm_compute; reflexivity.
Defined.

Lemma initializeAuth_restores_then_removes_witness :
  let r := initializeAuth (mount damaged_admin_page alice_store noon) in
  isAuthenticated (final r) = true
  /\ localStorage (final r) !! "user" = None
  /\ localStorage (final r) !! "admin" = None
  /\ admin (final r) = Null.
Proof.
  apply (initializeAuth_restores_then_removes
           (mount damaged_admin_page alice_store noon)
           (FlatJSON.stringify (mirror_of alice)) (mirror_of alice)).
  - vm_compute; reflexivity.
  - vm_compute; reflexivity.
  - discriminate.
  - discriminate.
  - exists "{oops". split; vm_compute; reflexivity.
Defined.

Lemma login_then_reload_witness :
  user (final (initializeAuth
                 (reload (final (login "abc123" "pw" alice_world)))))
    = Some (authUser_of alice)
  /\ user (final (initializeAuth
                    (reload (final (login "xyz789" "pw"
                                      (mount ∅ bob_store noon))))))
     = Some {| AuthUser.id := Str "user-2";
               AuthUser.email := Str "bob@raghuenggcollege.in";
               AuthUser.full_name := Str "Bob";
               AuthUser.roll_number := Str "XYZ789";
               AuthUser.branch := Str "ECE";
               AuthUser.year := Str "1";
               AuthUser.phone_number := Undefined;
               AuthUser.status := Str "active" |}.
Proof.
  split.
  - apply (login_then_reload "abc123" "pw" alice_world alice_store
             (fst (MockData.updateUser "user-1" noon alice_store))
             (MockData.found (Some alice))
             (MockData.found (Some (MockData.touch "user-1" noon alice)))
             alice);
      first [ reflexivity | vm_compute; reflexivity
            | vm_compute; discriminate ].
  - refine (proj1 (login_then_reload "xyz789" "pw" (mount ∅ bob_store noon)
                     bob_store
                     (fst (MockData.updateUser "user-2" noon bob_store))
                     (MockData.found (Some bob))
                     (MockData.found
                        (Some (MockData.touch "user-2" noon bob)))
                     bob eq_refl eq_refl eq_refl eq_refl eq_refl _ _)).
    + vm_compute. discriminate.
    + vm_compute. reflexivity.
Defined.

Lemma login_without_record_witness :
  let r := login "nobody" "pw" alice_world in
  value_of r = Returns (failed NotFound)
  /\ requests (log r) = [GetUserByRollNumber "NOBODY"]
  /\ user (final r) = None
  /\ localStorage (final r) = ∅.
Proof.
  exact (login_without_record "nobody" "pw" alice_world alice_store
           (Returns (MockData.found None)) eq_refl eq_refl eq_refl).
Defined.

Lemma adminLogin_accepted_witness :
  (let r := adminLogin "root" "s3cret" alice_world in
   requests (log r) = [AuthenticateAdmin "root" "s3cret"]
   /\ admin (final r) = AdminUser.to_value root
   /\ isAdminAuthenticated (final r) = true
   /\ value_of r = Returns succeeded
   /\ localStorage (final r)
      = <["admin" := JSON_stringify (AdminUser.to_value root)]> ∅)
  /\ (let r := adminLogin (quota := Full.quota) "root" "s3cret"
                          alice_world in
      requests (log r) = [AuthenticateAdmin "root" "s3cret"]
      /\ admin (final r) = AdminUser.to_value root
      /\ isAdminAuthenticated (final r) = true
      /\ value_of r = Returns (failed AuthFailed)
      /\ localStorage (final r) = ∅).
Proof.
  split.
  - exact (adminLogin_accepted "root" "s3cret" alice_world alice_store
             (MockData.found (Some root)) root eq_refl eq_refl).
  - exact (adminLogin_accepted (quota := Full.quota) "root" "s3cret"
             alice_world alice_store (MockData.found (Some root)) root
             eq_refl eq_refl).
Defined.

Lemma adminLogin_refused_witness :
  let r := adminLogin "root" "guess" alice_world in
  value_of r = Returns (failed InvalidCredentials)
  /\ admin (final r) = Null
  /\ localStorage (final r) = ∅.
Proof.
  apply (adminLogin_refused "root" "guess" alice_world alice_store
           (Returns (MockData.found None)));
    reflexivity.
Defined.

Lemma adminLogin_then_reload_witness :
  admin (final (initializeAuth
                  (reload (final (adminLogin "root" "s3cret" alice_world)))))
  = AdminUser.to_value root.
Proof.
  apply (adminLogin_then_reload "root" "s3cret" alice_world alice_store
           (MockData.found (Some root)) root);
    first [ reflexivity | vm_compute; reflexivity
          | vm_compute; discriminate | exact I ].
Defined.

Lemma register_create_failed_witness :
  let r := register (svc := FailingWrites.refusing) college empty_world in
  value_of r = Returns (failed CreateFailed)
  /\ requests (log r)
     = [GetUserByEmail "a@raghuenggcollege.in"; GetUserByRollNumber "R1";
        CreateUser college].
Proof.
  apply (register_create_failed (svc := FailingWrites.refusing) college
           empty_world empty_store empty_store empty_store
           (MockData.found None) (MockData.found None)
           (MockData.refused "insert failed"));
    reflexivity.
Defined.

Lemma register_without_created_record_witness :
  let r := register (svc := FailingWrites.silent) college empty_world in
  value_of r = Returns (failed RegistrationFailed)
  /\ requests (log r)
     = [GetUserByEmail "a@raghuenggcollege.in"; GetUserByRollNumber "R1";
        CreateUser college].
Proof.
  apply (register_without_created_record (svc := FailingWrites.silent)
           college empty_world empty_store empty_store empty_store
           (MockData.found None) (MockData.found None)
           (MockData.found None));
    reflexivity.
Defined.

Lemma register_files_registration_witness :
  value_of (register college empty_world) = Returns succeeded
  /\ last (requests (log (register college empty_world)))
     = Some (CreateRegistration
               {| Registration.user_id := "user-1";
                  Registration.registration_date := noon;
                  Registration.status := "active";
                  Registration.submission_status := "none" |}).
Proof.
  pose proof (register_files_registration college empty_world
                empty_store empty_store
                (fst (MockData.createUser college empty_store))
                (fst (MockData.createRegistration
                        {| Registration.user_id := "user-1";
                           Registration.registration_date := noon;
                           Registration.status := "active";
                           Registration.submission_status := "none" |}
                        (fst (MockData.createUser college empty_store))))
                (MockData.found None) (MockData.found None)
                _ _ _
                eq_refl eq_refl eq_refl eq_refl eq_refl eq_refl eq_refl
                eq_refl) as (Hvalue & Hrequests & _).
  split; [exact Hvalue |]. rewrite Hrequests. reflexivity.
Defined.

